(** * Attendance service (src/app.py): a shallow embedding and its properties

    The Flask handlers of [src/app.py] are embedded as functions from a
    request and the durable content of [attendance.db] to a reply and the
    durable content afterwards.

    Conventions of the embedding.
    - A table is the list of its rows in insertion order; the constraints of
      [init_db] (primary keys) are checked by the insert statements, as
      SQLite checks them, not assumed by the representation.
    - A JSON body is a record whose fields are [option]s: [None] is an absent
      key, and [data["k"]] on it raises [KeyError].  A present field carries
      a value of the type the schema of [init_db] gives its column; the
      [period_id] of an attendance batch may also be JSON [null], which is
      stored as NULL and which [COUNT(a.period_id)] tells apart.
    - A Python [float] is the rational it stands for; the arithmetic on it
      rounds to 53 significant bits, ties to even ([Double.fl]).
    - A Python [int] is a [Z]; binding it to a statement raises
      [OverflowError] outside the signed 64-bit range, as [sqlite3] does.
    - [sqlite3.connect] opens a connection whose writes stay in an open
      transaction until [conn.commit()]; a handler that leaves without
      committing leaves the durable content as it was.  [get_conn] sets no
      pragma, so the [FOREIGN KEY] clauses of [init_db] are not enforced. *)

From Stdlib Require Import ZArith List String Ascii Bool Lia Sorted Permutation.
From Stdlib Require Import QArith Qround Qabs Qpower Lqa.
Import ListNotations.

Open Scope string_scope.
Open Scope list_scope.
Open Scope Z_scope.

(** ** Exceptions and the error monad of statement execution *)

Inductive exn : Type :=
| KeyError (key : string)
| IntegrityError
| OverflowError
| ValueError
| UnicodeDecodeError
| CsvError
| OperationalError.

Inductive res (A : Type) : Type :=
| Ok (a : A)
| Raise (e : exn).

Arguments Ok {A} a.
Arguments Raise {A} e.

Definition bind {A B : Type} (m : res A) (k : A -> res B) : res B :=
  match m with
  | Ok a => k a
  | Raise e => Raise e
  end.

Notation "x <- m ;; k" := (bind m (fun x => k))
  (at level 61, m at next level, right associativity).

(** [data["k"]] on a JSON object. *)
Definition getitem {A : Type} (key : string) (field : option A) : res A :=
  match field with
  | Some v => Ok v
  | None => Raise (KeyError key)
  end.

(** [data.get("k", default)]. *)
Definition get_default {A : Type} (field : option A) (default : A) : A :=
  match field with
  | Some v => v
  | None => default
  end.

(** ** SQLite integers *)

Definition INT64_MIN : Z := - 9223372036854775808.
Definition INT64_MAX : Z := 9223372036854775807.

Definition sqlite_int (z : Z) : bool :=
  (INT64_MIN <=? z) && (z <=? INT64_MAX).

(** Binding a Python [int] as a statement parameter. *)
Definition bind_int (z : Z) : res Z :=
  if sqlite_int z then Ok z else Raise OverflowError.

(** ** The schema of [init_db] *)

Record class_row : Type := mkClass {
  class_id : Z;
  class_name : string;
  department : string
}.

Record student_row : Type := mkStudent {
  reg_no : string;
  student_name : string;
  s_class_id : Z
}.

Record period_row : Type := mkPeriod {
  period_id : Z;
  p_class_id : Z;
  subject_name : string;
  period_date : string;
  period_number : Z
}.

(** [a_period_id] is [None] for NULL: the primary key of [attendance] does
    not forbid it. *)
Record attendance_row : Type := mkAttendance {
  a_period_id : option Z;
  a_reg_no : string;
  is_present : Z
}.

(** The content of the database file.  [period_seq] is the entry of
    [sqlite_sequence] that [AUTOINCREMENT] keeps for [periods]: the largest
    [period_id] ever handed out. *)
Record db : Type := mkDb {
  classes : list class_row;
  students : list student_row;
  periods : list period_row;
  period_seq : Z;
  attendance : list attendance_row
}.

(** The state [init_db] leaves on a fresh file. *)
Definition init_db : db := mkDb [] [] [] 0 [].

(** ** Statements *)

Definition has_class (cid : Z) (d : db) : bool :=
  existsb (fun c => class_id c =? cid) (classes d).

Definition has_student (r : string) (d : db) : bool :=
  existsb (fun s => String.eqb (reg_no s) r) (students d).

(** [INSERT INTO classes (class_id, class_name, department) VALUES (?, ?, ?)] *)
Definition insert_class (cid : Z) (name dept : string) (d : db) : res db :=
  cid' <- bind_int cid ;;
  if has_class cid' d then Raise IntegrityError
  else Ok (mkDb (classes d ++ [mkClass cid' name dept])
                (students d) (periods d) (period_seq d) (attendance d)).

(** [INSERT INTO students (reg_no, student_name, class_id) VALUES (?, ?, ?)] *)
Definition insert_student (r name : string) (cid : Z) (d : db) : res db :=
  cid' <- bind_int cid ;;
  if has_student r d then Raise IntegrityError
  else Ok (mkDb (classes d) (students d ++ [mkStudent r name cid'])
                (periods d) (period_seq d) (attendance d)).

(** The largest [period_id] stored in [periods] (0 on an empty table). *)
Definition max_period_id (ps : list period_row) : Z :=
  fold_right (fun p m => Z.max (period_id p) m) 0 ps.

(** [INSERT INTO periods (class_id, subject_name, period_date, period_number)
    VALUES (?, ?, ?, ?)]: the row gets one more than the largest id ever used,
    and the statement fails when that id is the largest 64-bit integer.
    Returns the new content and [lastrowid]. *)
Definition insert_period (cid : Z) (subject date : string) (number : Z)
    (d : db) : res (db * Z) :=
  cid' <- bind_int cid ;;
  number' <- bind_int number ;;
  let m := Z.max (period_seq d) (max_period_id (periods d)) in
  if INT64_MAX <=? m then Raise OperationalError
  else
    let pid := m + 1 in
    Ok (mkDb (classes d) (students d)
             (periods d ++ [mkPeriod pid cid' subject date number'])
             pid (attendance d), pid).

(** Binding [None] or a Python [int]. *)
Definition bind_nullable_int (v : option Z) : res (option Z) :=
  match v with
  | None => Ok None
  | Some z => z' <- bind_int z ;; Ok (Some z')
  end.

(** The row [a] is the mark of student [r] for period [pid]. *)
Definition same_mark (pid : Z) (r : string) (a : attendance_row) : bool :=
  match a_period_id a with
  | Some p => (p =? pid) && String.eqb (a_reg_no a) r
  | None => false
  end.

(** The row [a] is in conflict, on the primary key, with a new row for
    [(pid, r)]: a NULL [period_id] is in conflict with no row. *)
Definition conflicts (pid : option Z) (r : string) (a : attendance_row)
    : bool :=
  match pid with
  | Some p => same_mark p r a
  | None => false
  end.

(** [INSERT OR REPLACE INTO attendance (period_id, reg_no, is_present)
    VALUES (?, ?, ?)]: the rows in conflict on the primary key
    [(period_id, reg_no)] are deleted, then the new row is inserted. *)
Definition replace_attendance (pid : option Z) (r : string) (present : Z)
    (d : db) : res db :=
  pid' <- bind_nullable_int pid ;;
  present' <- bind_int present ;;
  Ok (mkDb (classes d) (students d) (periods d) (period_seq d)
           (filter (fun a => negb (conflicts pid' r a)) (attendance d)
              ++ [mkAttendance pid' r present'])).

(** ** What the handlers take from Python and SQLite

    The handlers call into the Python runtime and rely on one coercion of
    SQLite.  These are not code of [src/app.py]; the embedding is parametric
    in them, but for the floating-point arithmetic, which is fixed by
    IEEE 754 and modelled in [Double]. *)

Inductive csv_rows : Type :=
| CsvEnd
| CsvFail
| CsvRow (row : list string) (rest : csv_rows).

Class Runtime : Type := {
  (** [bytes.decode("UTF8")]; [None] is [UnicodeDecodeError]. *)
  decode_utf8 : list Byte.byte -> option string;
  (** What iterating [csv.reader(io.StringIO(text, newline=None))] yields:
      rows, then the end of the input or a [csv.Error]. *)
  csv_reader : string -> csv_rows;
  (** [str.strip()]. *)
  strip : string -> string;
  (** [int(s)]; [None] is [ValueError]. *)
  int_of_str : string -> option Z;
  (** The integer a text parameter is compared as against a column of
      INTEGER affinity; [None] when the text does not convert to one. *)
  numeric_of_text : string -> option Z
}.

(** ** Python floats

    A finite double is the rational it stands for.  [fl] rounds a rational
    to the nearest double, ties to the even significand; the exponent range
    is left out, as the handler only meets values between [2^-70] and
    [2^70]. *)

Module Double.

Local Open Scope Q_scope.

(** Half the distance between 1 and the next double, [2^-53]. *)
Definition unit_roundoff : Q := 1 # 9007199254740992.

(** [ilog2 q] is the integer [e] with [2^e <= q < 2^(e+1)], for [0 < q]. *)
Definition ilog2 (q : Q) : Z :=
  let k := (Z.log2 (Qnum q) - Z.log2 (Zpos (Qden q)))%Z in
  if Qle_bool (2 ^ k) q then k else (k - 1)%Z.

Definition round_half_even (q : Q) : Z :=
  let f := Qfloor q in
  match Qcompare (q - inject_Z f) (1 # 2) with
  | Lt => f
  | Gt => (f + 1)%Z
  | Eq => if Z.even f then f else (f + 1)%Z
  end.

(** The double nearest to [q], for [0 < q]: [q] is scaled to a significand
    in [[2^52, 2^53)], rounded to an integer and scaled back. *)
Definition fl_pos (q : Q) : Q :=
  let s := (52 - ilog2 q)%Z in
  Qred (inject_Z (round_half_even (q * 2 ^ s)) * 2 ^ (- s)).

Definition fl (q : Q) : Q :=
  match Qcompare 0 q with
  | Eq => 0
  | Lt => fl_pos q
  | Gt => - fl_pos (- q)
  end.

End Double.

(** [round(attended_classes * 100.0 / total_classes, 2)], in hundredths.
    Both integers are converted to doubles, the product and the quotient are
    rounded to doubles, and [round] takes the multiple of [0.01] nearest to
    the exact value of the quotient double, ties to even; the reply carries
    the double nearest to that multiple, which prints as it. *)
Definition round_percentage (attended total : Z) : Z :=
  Double.round_half_even
    (Double.fl (Double.fl (Double.fl (inject_Z attended) * 100)
                / Double.fl (inject_Z total)) * 100)%Q.

(** ** Requests and replies *)

Record class_json : Type := mkClassJson {
  j_class_id : option Z;
  j_class_name : option string;
  j_department : option string
}.

Record student_json : Type := mkStudentJson {
  j_reg_no : option string;
  j_student_name : option string;
  j_s_class_id : option Z
}.

Record period_json : Type := mkPeriodJson {
  j_p_class_id : option Z;
  j_subject_name : option string;
  j_period_date : option string;
  j_period_number : option Z
}.

Record mark_json : Type := mkMarkJson {
  j_m_reg_no : option string;
  j_is_present : option Z
}.

(** [j_period_id] is [Some None] when the body carries
    ["period_id": null]. *)
Record attendance_json : Type := mkAttendanceJson {
  j_period_id : option (option Z);
  j_attendance : option (list mark_json)
}.

(** An entry of [request.files]. *)
Record upload : Type := mkUpload {
  filename : string;
  content : list Byte.byte
}.

(** The body of [get_overall_attendance]'s answer; the percentage is kept in
    hundredths ([6667] is [66.67]). *)
Record report : Type := mkReport {
  r_reg_no : string;
  r_student_name : string;
  total_classes : Z;
  attended_classes : Z;
  attendance_percentage : Z
}.

Inductive reply : Type :=
| Message (status : Z) (message : string)
| Error (status : Z) (error : string)
| ClassList (rows : list class_row)
| StudentList (rows : list student_row)
| BulkSummary (added skipped : Z)
| BulkFailure (e : exn)
| PeriodCreated (pid : Z)
| AttendanceReport (r : report)
| Unhandled (e : exn).

(** ** Handlers *)

Section Handlers.

Context {RT : Runtime}.

Definition add_class (data : class_json) (d : db) : reply * db :=
  match (cid <- getitem "class_id" (j_class_id data) ;;
         name <- getitem "class_name" (j_class_name data) ;;
         insert_class cid name (get_default (j_department data) "") d) with
  | Ok d' => (Message 201 "Class added", d')
  | Raise IntegrityError => (Error 400 "Class ID already exists", d)
  | Raise e => (Unhandled e, d)
  end.

(** [class_id] is the rowid of [classes], and a [SELECT] without [ORDER BY]
    walks the table by rowid: the rows come by increasing [class_id]. *)
Fixpoint insert_by_class_id (c : class_row) (rows : list class_row)
    : list class_row :=
  match rows with
  | [] => [c]
  | x :: rest =>
      if class_id c <=? class_id x then c :: rows
      else x :: insert_by_class_id c rest
  end.

Definition by_class_id (rows : list class_row) : list class_row :=
  fold_right insert_by_class_id [] rows.

Definition get_classes (d : db) : reply * db :=
  (ClassList (by_class_id (classes d)), d).

Definition add_student (data : student_json) (d : db) : reply * db :=
  match (r <- getitem "reg_no" (j_reg_no data) ;;
         name <- getitem "student_name" (j_student_name data) ;;
         cid <- getitem "class_id" (j_s_class_id data) ;;
         insert_student r name cid d) with
  | Ok d' => (Message 201 "Student added", d')
  | Raise IntegrityError =>
      (Error 400 "Student registration number already exists", d)
  | Raise e => (Unhandled e, d)
  end.

(** [WHERE class_id = ?] with the text of the query parameter. *)
Definition class_id_is (param : string) (s : student_row) : bool :=
  match numeric_of_text param with
  | Some z => s_class_id s =? z
  | None => false
  end.

Definition get_students (class_id_arg : option string) (d : db) : reply * db :=
  match class_id_arg with
  | Some param =>
      if String.eqb param "" then (StudentList (students d), d)
      else (StudentList (filter (class_id_is param) (students d)), d)
  | None => (StudentList (students d), d)
  end.

(** One turn of the loop of [bulk_add_students] on the connection's
    content [w] and the two counters. *)
Definition bulk_row (row : list string) (st : db * Z * Z) : res (db * Z * Z) :=
  let '(w, added, skipped) := st in
  match row with
  | f0 :: f1 :: f2 :: _ =>
      match int_of_str (strip f2) with
      | None => Ok (w, added, skipped + 1)
      | Some cid =>
          match insert_student (strip f0) (strip f1) cid w with
          | Ok w' => Ok (w', added + 1, skipped)
          | Raise IntegrityError => Ok (w, added, skipped + 1)
          | Raise ValueError => Ok (w, added, skipped + 1)
          | Raise e => Raise e
          end
      end
  | _ => Ok st
  end.

Fixpoint bulk_loop (rows : csv_rows) (st : db * Z * Z) : res (db * Z * Z) :=
  match rows with
  | CsvEnd => Ok st
  | CsvFail => Raise CsvError
  | CsvRow row rest => st' <- bulk_row row st ;; bulk_loop rest st'
  end.

(** [next(csv_reader, None)]. *)
Definition skip_header (rows : csv_rows) : res csv_rows :=
  match rows with
  | CsvEnd => Ok CsvEnd
  | CsvFail => Raise CsvError
  | CsvRow _ rest => Ok rest
  end.

Definition bulk_add_students (file : option upload) (d : db) : reply * db :=
  match file with
  | None => (Error 400 "No file provided", d)
  | Some f =>
      if String.eqb (filename f) "" then (Error 400 "No file selected", d)
      else
        match decode_utf8 (content f) with
        | None => (BulkFailure UnicodeDecodeError, d)
        | Some text =>
            match (rows <- skip_header (csv_reader text) ;;
                   bulk_loop rows (d, 0, 0)) with
            | Ok (w, added, skipped) => (BulkSummary added skipped, w)
            | Raise e => (BulkFailure e, d)
            end
        end
  end.

Definition create_period (data : period_json) (d : db) : reply * db :=
  match (cid <- getitem "class_id" (j_p_class_id data) ;;
         subject <- getitem "subject_name" (j_subject_name data) ;;
         date <- getitem "period_date" (j_period_date data) ;;
         number <- getitem "period_number" (j_period_number data) ;;
         insert_period cid subject date number d) with
  | Ok (d', pid) => (PeriodCreated pid, d')
  | Raise e => (Unhandled e, d)
  end.

(** The body of the loop of [mark_attendance]. *)
Definition mark_one (pid : option Z) (record : mark_json) (w : db) : res db :=
  r <- getitem "reg_no" (j_m_reg_no record) ;;
  present <- getitem "is_present" (j_is_present record) ;;
  replace_attendance pid r present w.

Fixpoint mark_loop (pid : option Z) (records : list mark_json) (w : db)
    : res db :=
  match records with
  | [] => Ok w
  | record :: rest => w' <- mark_one pid record w ;; mark_loop pid rest w'
  end.

Definition mark_attendance (data : attendance_json) (d : db) : reply * db :=
  match (pid <- getitem "period_id" (j_period_id data) ;;
         attendance_list <- getitem "attendance" (j_attendance data) ;;
         mark_loop pid attendance_list d) with
  | Ok w => (Message 200 "Attendance saved", w)
  | Raise e => (Unhandled e, d)
  end.

(** The rows of [students s LEFT JOIN attendance a ON s.reg_no = a.reg_no]
    for one student row: its marks, or one row of NULLs when it has none. *)
Definition left_join (s : student_row) (marks : list attendance_row)
    : list (option attendance_row) :=
  match filter (fun a => String.eqb (reg_no s) (a_reg_no a)) marks with
  | [] => [None]
  | matched => map Some matched
  end.

(** [COUNT(a.period_id)]: the joined rows whose [period_id] is not NULL. *)
Definition has_period (a : attendance_row) : bool :=
  match a_period_id a with
  | Some _ => true
  | None => false
  end.

Definition count_period_id (rows : list (option attendance_row)) : Z :=
  fold_right
    (fun o n =>
       match o with
       | Some a => if has_period a then n + 1 else n
       | None => n
       end) 0 rows.

(** [CASE WHEN a.is_present = 1 THEN 1 ELSE 0 END] *)
Definition case_present (o : option attendance_row) : Z :=
  match o with
  | Some a => if is_present a =? 1 then 1 else 0
  | None => 0
  end.

(** [SUM(...)] over the rows of a group; NULL over no row. *)
Definition sum_case_present (rows : list (option attendance_row)) : option Z :=
  match rows with
  | [] => None
  | _ => Some (fold_right (fun o n => case_present o + n) 0 rows)
  end.

(** The query of [get_overall_attendance] followed by [fetchone()].
    [reg_no] is the primary key of [students], so the [WHERE] clause keeps at
    most one student row and [GROUP BY] forms at most one group. *)
Definition attendance_query (r : string) (d : db)
    : option (string * string * Z * option Z) :=
  match find (fun s => String.eqb (reg_no s) r) (students d) with
  | None => None
  | Some s =>
      let rows := left_join s (attendance d) in
      Some (reg_no s, student_name s, count_period_id rows,
            sum_case_present rows)
  end.

(** What the handler makes of the row of the query. *)
Definition report_of_row (row : string * string * Z * option Z) : report :=
  let '(row0, row1, row2, row3) := row in
  let total := row2 in
  let attended := match row3 with Some n => n | None => 0 end in
  let percentage :=
    if negb (total =? 0) && (0 <? total)
    then round_percentage attended total
    else 0 in
  mkReport row0 row1 total attended percentage.

Definition get_overall_attendance (r : string) (d : db) : reply * db :=
  match attendance_query r d with
  | None => (Error 404 "Student not found", d)
  | Some row => (AttendanceReport (report_of_row row), d)
  end.

End Handlers.

(** ** An executable runtime

    An instance of [Runtime] in which a text is the string of its UTF-8
    bytes; the examples run on it.  It decodes as Python does.  It reads CSV
    as Python does when the text holds no quote character.  [strip] and
    [int_of_str] know the ASCII whitespace and digits and [numeric_of_text]
    computes exactly, so they agree with Python and SQLite on strings whose
    whitespace and digits are ASCII and whose numbers have at most 15
    significant digits. *)

Module AsciiRuntime.

(** [str.isspace] on ASCII: tab to carriage return, the four separators
    and the space. *)
Definition is_space (c : ascii) : bool :=
  let n := nat_of_ascii c in
  (Nat.leb 9 n && Nat.leb n 13) || (Nat.leb 28 n && Nat.leb n 32).

Fixpoint lstrip (s : string) : string :=
  match s with
  | EmptyString => EmptyString
  | String c s' => if is_space c then lstrip s' else s
  end.

Fixpoint rstrip (s : string) : string :=
  match s with
  | EmptyString => EmptyString
  | String c s' =>
      match rstrip s' with
      | EmptyString => if is_space c then EmptyString else String c EmptyString
      | t => String c t
      end
  end.

Definition strip (s : string) : string := rstrip (lstrip s).

Definition digit_of (c : ascii) : option Z :=
  let n := Z.of_nat (nat_of_ascii c) in
  if (48 <=? n) && (n <=? 57) then Some (n - 48) else None.

(** Decimal digits, with single underscores between digits. *)
Fixpoint digits (s : string) (acc : Z) (after_digit : bool) : option Z :=
  match s with
  | EmptyString => if after_digit then Some acc else None
  | String c s' =>
      match digit_of c with
      | Some v => digits s' (10 * acc + v) true
      | None =>
          if Ascii.eqb c "_" && after_digit then digits s' acc false
          else None
      end
  end.

Definition int_of_str (s : string) : option Z :=
  match strip s with
  | String "-" s' => option_map Z.opp (digits s' 0 false)
  | String "+" s' => digits s' 0 false
  | s' => digits s' 0 false
  end.

(** The whitespace SQLite skips around a number. *)
Definition is_sql_space (c : ascii) : bool :=
  let n := nat_of_ascii c in
  Nat.eqb n 32 || (Nat.leb 9 n && Nat.leb n 13).

Fixpoint skip_spaces (s : string) : string :=
  match s with
  | EmptyString => EmptyString
  | String c s' => if is_sql_space c then skip_spaces s' else s
  end.

(** The leading digits of [s]: their value after [acc], how many more than
    [count] they are, and what follows them. *)
Fixpoint take_digits (s : string) (acc count : Z) : Z * Z * string :=
  match s with
  | EmptyString => (acc, count, s)
  | String c s' =>
      match digit_of c with
      | Some v => take_digits s' (10 * acc + v) (count + 1)
      | None => (acc, count, s)
      end
  end.

Definition take_sign (s : string) : bool * string :=
  match s with
  | String "-" s' => (true, s')
  | String "+" s' => (false, s')
  | _ => (false, s)
  end.

(** The exponent part at the head of [s]: its value and what follows, or
    [None] when an [e] is followed by no digit. *)
Definition take_exponent (s : string) : option (Z * string) :=
  match s with
  | String c s' =>
      if Ascii.eqb c "e" || Ascii.eqb c "E" then
        let '(negative, s1) := take_sign s' in
        let '(v, n, s2) := take_digits s1 0 0 in
        if n =? 0 then None
        else Some (if negative then - v else v, s2)
      else Some (0, s)
  | EmptyString => Some (0, s)
  end.

(** A text that is an integer or real literal between optional spaces, when
    its value is an integer. *)
Definition numeric_of_text (s : string) : option Z :=
  let '(negative, s1) := take_sign (skip_spaces s) in
  let '(whole, n_whole, s2) := take_digits s1 0 0 in
  let '(mantissa, n_all, s3) :=
    match s2 with
    | String "." s' => take_digits s' whole n_whole
    | _ => (whole, n_whole, s2)
    end in
  if n_all =? 0 then None
  else
    match take_exponent s3 with
    | None => None
    | Some (e, s4) =>
        match skip_spaces s4 with
        | EmptyString =>
            let shift := e - (n_all - n_whole) in
            let magnitude :=
              if 0 <=? shift then Some (mantissa * 10 ^ shift)
              else if mantissa mod 10 ^ (- shift) =? 0
                   then Some (mantissa / 10 ^ (- shift))
                   else None in
            option_map (fun z => if negative then - z else z) magnitude
        | _ => None
        end
    end.

(** [newline=None]: a carriage return, alone or before a line feed, reads
    as a line feed. *)
Fixpoint universal_newlines (s : string) : string :=
  match s with
  | EmptyString => EmptyString
  | String c s' =>
      if Ascii.eqb c "013" then
        match s' with
        | String "010" s'' => String "010" (universal_newlines s'')
        | _ => String "010" (universal_newlines s')
        end
      else String c (universal_newlines s')
  end.

Fixpoint split_on (sep : ascii) (s : string) : list string :=
  match s with
  | EmptyString => [EmptyString]
  | String c s' =>
      if Ascii.eqb c sep then EmptyString :: split_on sep s'
      else
        match split_on sep s' with
        | h :: t => String c h :: t
        | [] => [String c EmptyString]
        end
  end.

Definition fields (line : string) : list string :=
  match line with
  | EmptyString => []
  | _ => split_on "," line
  end.

Fixpoint rows_of_lines (lines : list string) : csv_rows :=
  match lines with
  | [] => CsvEnd
  | [EmptyString] => CsvEnd
  | line :: rest => CsvRow (fields line) (rows_of_lines rest)
  end.

Definition csv_reader (text : string) : csv_rows :=
  rows_of_lines (split_on "010" (universal_newlines text)).

Definition between (lo hi b : N) : bool := N.leb lo b && N.leb b hi.

Definition continuation (b : N) : bool := between 128 191 b.

(** Well-formed UTF-8: no overlong form, no surrogate, nothing above
    U+10FFFF. *)
Fixpoint well_formed_utf8 (bytes : list N) : bool :=
  match bytes with
  | [] => true
  | b0 :: r0 =>
      if N.leb b0 127 then well_formed_utf8 r0
      else
        match r0 with
        | [] => false
        | b1 :: r1 =>
            if between 194 223 b0 then continuation b1 && well_formed_utf8 r1
            else
              match r1 with
              | [] => false
              | b2 :: r2 =>
                  if between 224 239 b0 then
                    (if N.eqb b0 224 then between 160 191 b1
                     else if N.eqb b0 237 then between 128 159 b1
                     else continuation b1)
                    && continuation b2 && well_formed_utf8 r2
                  else
                    match r2 with
                    | [] => false
                    | b3 :: r3 =>
                        between 240 244 b0
                        && (if N.eqb b0 240 then between 144 191 b1
                            else if N.eqb b0 244 then between 128 143 b1
                            else continuation b1)
                        && continuation b2 && continuation b3
                        && well_formed_utf8 r3
                    end
              end
        end
  end.

Definition decode_utf8 (bytes : list Byte.byte) : option string :=
  if well_formed_utf8 (map Byte.to_N bytes)
  then Some (string_of_list_byte bytes)
  else None.

Definition runtime : Runtime :=
  Build_Runtime decode_utf8 csv_reader strip int_of_str numeric_of_text.

End AsciiRuntime.

(** ** The service as a whole *)

Inductive request : Type :=
| AddClass (data : class_json)
| GetClasses
| AddStudent (data : student_json)
| GetStudents (class_id_arg : option string)
| BulkAddStudents (file : option upload)
| CreatePeriod (data : period_json)
| MarkAttendance (data : attendance_json)
| GetOverallAttendance (r : string).

Section Service.

Context {RT : Runtime}.

Definition handle (q : request) (d : db) : reply * db :=
  match q with
  | AddClass data => add_class data d
  | GetClasses => get_classes d
  | AddStudent data => add_student data d
  | GetStudents arg => get_students arg d
  | BulkAddStudents file => bulk_add_students file d
  | CreatePeriod data => create_period data d
  | MarkAttendance data => mark_attendance data d
  | GetOverallAttendance r => get_overall_attendance r d
  end.

(** Requests served one after the other, each on what the previous ones
    committed; the replies come in the order of the requests.

    Only the content of the store is threaded: every request finds the
    database unlocked, as it is once the connections of the earlier requests
    are closed.  A handler that raised after a write may keep its connection
    open for a while, and a write that comes meanwhile is answered with
    "database is locked" and changes nothing; what the service then does is
    what [serve] does on the requests that were not turned away. *)
Fixpoint serve (qs : list request) (d : db) : list reply * db :=
  match qs with
  | [] => ([], d)
  | q :: rest =>
      let '(a, d1) := handle q d in
      let '(answers, d2) := serve rest d1 in
      (a :: answers, d2)
  end.

(** A state the service can be in: what some requests leave, starting from
    the tables [init_db] creates. *)
Definition reachable (d : db) : Prop :=
  exists qs, snd (serve qs init_db) = d.

End Service.

(** The [period_id]s handed out in a list of replies, in order. *)
Definition created_periods (answers : list reply) : list Z :=
  flat_map (fun a => match a with PeriodCreated pid => [pid] | _ => [] end)
           answers.

(** The constraints of the schema on a state: primary keys are unique and
    the integer keys are SQLite integers. *)
Definition mark_key (a : attendance_row) : option Z * string :=
  (a_period_id a, a_reg_no a).

Record wf_db (d : db) : Prop := mkWf {
  wf_class_key : NoDup (map class_id (classes d));
  wf_class_int : Forall (fun c => sqlite_int (class_id c) = true) (classes d);
  wf_student_key : NoDup (map reg_no (students d));
  wf_period_key : NoDup (map period_id (periods d));
  wf_period_seq :
    Forall (fun p => 0 < period_id p <= period_seq d) (periods d);
  wf_mark_key : NoDup (map mark_key (filter has_period (attendance d)))
}.

(** The marks stored for a registration number, those of them that carry
    a [period_id], and those of them whose [is_present] is 1. *)
Definition marks_of (r : string) (d : db) : list attendance_row :=
  filter (fun a => String.eqb r (a_reg_no a)) (attendance d).

Definition counted_marks_of (r : string) (d : db) : list attendance_row :=
  filter has_period (marks_of r d).

Definition present_marks_of (r : string) (d : db) : list attendance_row :=
  filter (fun a => is_present a =? 1) (marks_of r d).

(** The [is_present] of the last record of a batch that names [r]. *)
Fixpoint last_mark (r : string) (records : list mark_json) : option Z :=
  match records with
  | [] => None
  | record :: rest =>
      match last_mark r rest with
      | Some v => Some v
      | None =>
          match j_m_reg_no record, j_is_present record with
          | Some r', Some v => if String.eqb r' r then Some v else None
          | _, _ => None
          end
      end
  end.

(** A record of a batch that [mark_one] can apply: both keys present and
    the flag an SQLite integer. *)
Definition well_formed_mark (record : mark_json) : bool :=
  match j_m_reg_no record, j_is_present record with
  | Some _, Some v => sqlite_int v
  | _, _ => false
  end.

(** The largest [period_id] the store has used so far. *)
Definition high_water (d : db) : Z :=
  Z.max (period_seq d) (max_period_id (periods d)).

(** A handler that creates no period: it hands out no identifier and leaves
    [periods] and its sequence as they were. *)
Definition quiet (d : db) (x : reply * db) : Prop :=
  periods (snd x) = periods d /\ period_seq (snd x) = period_seq d /\
  forall pid, fst x <> PeriodCreated pid.

(** A turn of the bulk loop touches [students] only, by appending. *)
Definition students_grow (w w' : db) : Prop :=
  classes w' = classes w /\ periods w' = periods w /\
  period_seq w' = period_seq w /\ attendance w' = attendance w /\
  exists more, students w' = students w ++ more.

(** ** Sample inputs *)

Definition nl : string := String "010" EmptyString.

(** Seven data rows after the header: five well-formed ones, one that
    repeats the registration number S2, and one with two fields. *)
Definition sample_csv : string :=
  "reg_no,student_name,class_id" ++ nl ++
  "S1, Asha ,1" ++ nl ++ "S2,Bala,1" ++ nl ++ "S3,Chitra,2" ++ nl ++
  "S2,Again,1" ++ nl ++ "S4,Dev" ++ nl ++ "S5,Esha,2" ++ nl ++
  "S6,Farid, 3" ++ nl.

(** A well-formed row followed by one whose class_id is 2^63. *)
Definition oversized_csv : string :=
  "reg_no,student_name,class_id" ++ nl ++
  "S1,Asha,1" ++ nl ++ "S2,Bala,9223372036854775808" ++ nl.

Definition upload_of (text : string) : option upload :=
  Some (mkUpload "students.csv" (list_byte_of_string text)).

Definition period_of (number : Z) : period_json :=
  mkPeriodJson (Some 1) (Some "Maths") (Some "2025-12-15") (Some number).

Definition mark (r : string) (present : Z) : mark_json :=
  mkMarkJson (Some r) (Some present).

Definition marks_for (pid : Z) (records : list mark_json) : attendance_json :=
  mkAttendanceJson (Some (Some pid)) (Some records).

(** A batch whose [period_id] is [null]. *)
Definition marks_for_null (records : list mark_json) : attendance_json :=
  mkAttendanceJson (Some None) (Some records).

(** One class, two students, three periods; S1 is marked in all three and
    present in two, S2 is never marked. *)
Definition sample_requests : list request :=
  [ AddClass (mkClassJson (Some 1) (Some "CSE-A") None);
    AddStudent (mkStudentJson (Some "S1") (Some "Asha") (Some 1));
    AddStudent (mkStudentJson (Some "S2") (Some "Bala") (Some 1));
    CreatePeriod (period_of 1);
    CreatePeriod (period_of 2);
    CreatePeriod (period_of 3);
    MarkAttendance (marks_for 1 [mark "S1" 1]);
    MarkAttendance (marks_for 2 [mark "S1" 0]);
    MarkAttendance (marks_for 3 [mark "S1" 1]) ].

Definition sample_db : db :=
  snd (serve (RT := AsciiRuntime.runtime) sample_requests init_db).

(** [sample_db] after S2 is marked present once for period 1 and once with
    a [null] period. *)
Definition null_period_db : db :=
  snd (serve (RT := AsciiRuntime.runtime)
         [ MarkAttendance (marks_for 1 [mark "S2" 1]);
           MarkAttendance (marks_for_null [mark "S2" 1]) ]
         sample_db).


(** A batch whose second record has no [is_present]. *)
Definition broken_batch : attendance_json :=
  marks_for 1 [mark "S1" 1; mkMarkJson (Some "S2") None; mark "S3" 1].

(** The replies that report a failure: an error answer of the handler, or
    an exception that leaves it. *)
Definition is_failure (a : reply) : bool :=
  match a with
  | Error _ _ | BulkFailure _ | Unhandled _ => true
  | _ => false
  end.

(** [extends d d']: [d'] holds every class, student and period row of [d],
    unchanged and in the same place, its sequence is not lower, and every
    (period_id, reg_no) pair marked in [d] is still marked in [d']. *)
Definition extends (d d' : db) : Prop :=
  (exists more, classes d' = classes d ++ more) /\
  (exists more, students d' = students d ++ more) /\
  (exists more, periods d' = periods d ++ more) /\
  period_seq d <= period_seq d' /\
  forall a, In a (attendance d) ->
            exists a', In a' (attendance d') /\ mark_key a' = mark_key a.

(** The number of rows a reader yields before it ends or fails. *)
Fixpoint rows_yielded (rows : csv_rows) : Z :=
  match rows with
  | CsvEnd | CsvFail => 0
  | CsvRow _ rest => 1 + rows_yielded rest
  end.

(** The requests [mark_attendance] serves. *)
Definition is_mark (q : request) : bool :=
  match q with
  | MarkAttendance _ => true
  | _ => false
  end.

Definition present_flag (v : Z) : Z := if v =? 1 then 1 else 0.

(** The order of the rows [get_classes] lists. *)
Definition class_id_le (x y : class_row) : Prop := class_id x <= class_id y.

(** ** Facts about the statements *)

Lemma bind_int_ok (z : Z) : sqlite_int z = true -> bind_int z = Ok z.
Proof. intros H. unfold bind_int. now rewrite H. Qed.

Lemma bind_int_inv (z z' : Z) :
  bind_int z = Ok z' -> z' = z /\ sqlite_int z = true.
Proof.
  unfold bind_int. destruct (sqlite_int z); [|discriminate].
  intros H. injection H as <-. now split.
Qed.

Lemma bind_int_overflow (z : Z) :
  sqlite_int z = false -> bind_int z = Raise OverflowError.
Proof. intros H. unfold bind_int. now rewrite H. Qed.

Lemma has_class_true (cid : Z) (d : db) :
  has_class cid d = true <-> exists c, In c (classes d) /\ class_id c = cid.
Proof.
  unfold has_class. rewrite existsb_exists.
  split; intros [c [Hin Hc]]; exists c; split; auto.
  - now apply Z.eqb_eq.
  - now apply Z.eqb_eq.
Qed.

Lemma has_student_true (r : string) (d : db) :
  has_student r d = true <-> In r (map reg_no (students d)).
Proof.
  unfold has_student. rewrite existsb_exists, in_map_iff.
  split; intros [s [H1 H2]]; exists s.
  - split; [now apply String.eqb_eq | assumption].
  - split; [assumption | now apply String.eqb_eq].
Qed.

Lemma has_student_false (r : string) (d : db) :
  has_student r d = false <-> ~ In r (map reg_no (students d)).
Proof.
  rewrite <- has_student_true.
  destruct (has_student r d); split; intros H;
    [ discriminate | exfalso; now apply H | intros E; discriminate
    | reflexivity ].
Qed.

Lemma insert_student_inv (r name : string) (cid : Z) (d d' : db) :
  insert_student r name cid d = Ok d' ->
  sqlite_int cid = true /\ has_student r d = false /\
  d' = mkDb (classes d) (students d ++ [mkStudent r name cid])
            (periods d) (period_seq d) (attendance d).
Proof.
  unfold insert_student, bind, bind_int.
  destruct (sqlite_int cid); [|discriminate].
  destruct (has_student r d); [discriminate|].
  intros H. injection H as <-. auto.
Qed.

Lemma insert_class_inv (cid : Z) (name dept : string) (d d' : db) :
  insert_class cid name dept d = Ok d' ->
  sqlite_int cid = true /\ has_class cid d = false /\
  d' = mkDb (classes d ++ [mkClass cid name dept]) (students d)
            (periods d) (period_seq d) (attendance d).
Proof.
  unfold insert_class, bind, bind_int.
  destruct (sqlite_int cid); [|discriminate].
  destruct (has_class cid d); [discriminate|].
  intros H. injection H as <-. auto.
Qed.

(** ** Facts about the rounding of doubles *)

Section DoubleFacts.
Import Double.
Local Open Scope Q_scope.

Lemma round_half_even_near (q : Q) :
  Qabs (inject_Z (round_half_even q) - q) <= 1 # 2.
Proof.
  unfold round_half_even.
  pose proof (Qfloor_le q) as Hlo. pose proof (Qlt_floor q) as Hhi.
  rewrite inject_Z_plus in Hhi. change (inject_Z 1) with 1 in Hhi.
  apply Qabs_case; intros _;
  destruct (Qcompare_spec (q - inject_Z (Qfloor q)) (1 # 2)) as [E|E|E];
    try destruct (Z.even (Qfloor q));
    rewrite ?inject_Z_plus; change (inject_Z 1) with 1; try rewrite E; lra.
Qed.

Lemma pow2_pos (k : Z) : 0 < 2 ^ k.
Proof. apply Qpower_0_lt. reflexivity. Qed.

Lemma ilog2_le (q : Q) : 0 < q -> 2 ^ ilog2 q <= q.
Proof.
  intros Hq. unfold ilog2.
  set (n := Qnum q). set (d := Zpos (Qden q)).
  destruct (Qle_bool (2 ^ (Z.log2 n - Z.log2 d)) q) eqn:T.
  - now apply Qle_bool_iff.
  - clear T.
    assert (Hn : (0 < n)%Z).
    { unfold n. destruct q as [qn qd]. unfold Qlt in Hq. cbn in *. lia. }
    assert (Hd : (0 < d)%Z) by (unfold d; lia).
    destruct (Z.log2_spec n Hn) as [Hn1 _].
    destruct (Z.log2_spec d Hd) as [_ Hd2].
    replace (Z.log2 n - Z.log2 d - 1)%Z
      with (Z.log2 n - Z.succ (Z.log2 d))%Z by lia.
    rewrite Qpower_minus by discriminate.
    pose proof (Z.log2_nonneg n). pose proof (Z.log2_nonneg d).
    rewrite <- !(Zpower_Qpower 2) by lia.
    assert (Q1 : inject_Z (2 ^ Z.log2 n) <= inject_Z n)
      by (rewrite <- Zle_Qle; exact Hn1).
    assert (Q2 : inject_Z d < inject_Z (2 ^ Z.succ (Z.log2 d)))
      by (rewrite <- Zlt_Qlt; exact Hd2).
    assert (Q3 : 0 < inject_Z d) by (rewrite <- (Zlt_Qlt 0); exact Hd).
    assert (Eq : q == inject_Z n / inject_Z d).
    { unfold n, d. destruct q as [qn qd]. cbn. apply Qmake_Qdiv. }
    rewrite Eq.
    apply Qle_shift_div_l; [exact Q3|].
    apply Qle_trans with (inject_Z (2 ^ Z.log2 n)); [|exact Q1].
    set (a := inject_Z (2 ^ Z.log2 n)) in *.
    set (b := inject_Z (2 ^ Z.succ (Z.log2 d))) in *.
    assert (Ha : 0 <= a).
    { unfold a. rewrite <- (Zle_Qle 0). apply Z.pow_nonneg. lia. }
    assert (Hb : 0 < b) by lra.
    unfold Qdiv.
    setoid_replace (a * / b * inject_Z d) with (a * (inject_Z d / b))
      by (field; lra).
    assert (inject_Z d / b <= 1) by (apply Qle_shift_div_r; lra).
    nra.
Qed.

Lemma fl_pos_eq (q : Q) : 0 < q -> fl q == fl_pos q.
Proof.
  intros Hq. unfold fl. destruct (Qcompare_spec 0 q) as [E|E|E];
    [rewrite <- E in Hq; lra | reflexivity | lra].
Qed.

Lemma fl_zero : fl 0 == 0.
Proof. reflexivity. Qed.

Lemma fl_error (q : Q) : 0 < q -> Qabs (fl q - q) <= q * unit_roundoff.
Proof.
  intros Hq. rewrite (fl_pos_eq q Hq). unfold fl_pos. rewrite Qred_correct.
  set (s := (52 - ilog2 q)%Z).
  pose proof (ilog2_le q Hq) as Hc.
  pose proof (pow2_pos s) as Hp. pose proof (pow2_pos (- s)) as Hpi.
  assert (Hinv : 2 ^ s * 2 ^ (- s) == 1).
  { rewrite <- Qpower_plus by discriminate.
    replace (s + - s)%Z with 0%Z by lia. reflexivity. }
  assert (Hscale : 2 ^ ilog2 q * 2 ^ s == 2 ^ 52).
  { rewrite <- Qpower_plus by discriminate.
    replace (ilog2 q + s)%Z with 52%Z by (unfold s; lia). reflexivity. }
  pose proof (round_half_even_near (q * 2 ^ s)) as Hm.
  set (m := inject_Z (round_half_even (q * 2 ^ s))) in *.
  set (p := 2 ^ s) in *. set (pi := 2 ^ (- s)) in *.
  set (c := 2 ^ ilog2 q) in *.
  apply Qabs_Qle_condition in Hm. destruct Hm as [Hm1 Hm2].
  assert (Hc2 : c == 2 ^ 52 * pi).
  { setoid_replace c with (c * (p * pi)) by (rewrite Hinv; ring).
    setoid_replace (c * (p * pi)) with ((c * p) * pi) by ring.
    now rewrite Hscale. }
  assert (Hq2 : q == (q * p) * pi).
  { setoid_replace (q * p * pi) with (q * (p * pi)) by ring.
    rewrite Hinv. ring. }
  assert (Hhalf : pi * (1 # 2) <= q * unit_roundoff).
  { apply Qle_trans with (c * unit_roundoff).
    - rewrite Hc2. unfold unit_roundoff.
      change (2 ^ 52) with (4503599627370496 # 1). lra.
    - unfold unit_roundoff. lra. }
  apply Qabs_Qle_condition. split.
  - assert (- (pi * (1 # 2)) <= m * pi - q); [|lra].
    rewrite Hq2 at 1.
    setoid_replace (m * pi - q * p * pi) with ((m - q * p) * pi) by ring.
    setoid_replace (- (pi * (1 # 2))) with ((- (1 # 2)) * pi) by ring.
    apply Qmult_le_compat_r; lra.
  - assert (m * pi - q <= pi * (1 # 2)); [|lra].
    rewrite Hq2 at 1.
    setoid_replace (m * pi - q * p * pi) with ((m - q * p) * pi) by ring.
    setoid_replace (pi * (1 # 2)) with ((1 # 2) * pi) by ring.
    apply Qmult_le_compat_r; lra.
Qed.

(** The two-sided form of the error bound. *)
Lemma fl_bounds (q : Q) :
  0 < q ->
  q * (1 - unit_roundoff) <= fl q /\ fl q <= q * (1 + unit_roundoff).
Proof.
  intros Hq. pose proof (fl_error q Hq) as H.
  apply Qabs_Qle_condition in H. destruct H. split; lra.
Qed.

End DoubleFacts.

(** ** Facts about the percentage *)

Section Percentage.
Import Double.
Local Open Scope Q_scope.

Lemma fl_of_zero (q : Q) : q == 0 -> fl q == 0.
Proof.
  intros Hq. unfold fl. destruct (Qcompare_spec 0 q) as [E|E|E];
    [reflexivity | lra | lra].
Qed.

Lemma fl_positive (q : Q) : 0 < q -> 0 < fl q.
Proof.
  intros Hq. destruct (fl_bounds q Hq) as [H _].
  assert (0 < q * (1 - unit_roundoff)); [|lra].
  apply Qmult_lt_0_compat; [exact Hq | reflexivity].
Qed.

(** The double [x] the handler rounds, between the bounds that four
    roundings leave around [100 * a / t]. *)
Lemma quotient_bounds (a t : Z) :
  (0 < a)%Z -> (0 < t)%Z ->
  let x := fl (fl (fl (inject_Z a) * 100) / fl (inject_Z t)) in
  0 < x /\
  x * inject_Z t * (1 - unit_roundoff)
    <= 100 * inject_Z a * (1 + unit_roundoff) * (1 + unit_roundoff)
       * (1 + unit_roundoff) /\
  100 * inject_Z a * (1 - unit_roundoff) * (1 - unit_roundoff)
      * (1 - unit_roundoff)
    <= x * inject_Z t * (1 + unit_roundoff).
Proof.
  intros Ha Ht. cbv zeta.
  assert (Qa : 0 < inject_Z a) by (rewrite <- (Zlt_Qlt 0); exact Ha).
  assert (Qt : 0 < inject_Z t) by (rewrite <- (Zlt_Qlt 0); exact Ht).
  pose proof (fl_bounds _ Qa) as [A1 A2]. pose proof (fl_positive _ Qa) as A0.
  pose proof (fl_bounds _ Qt) as [T1 T2]. pose proof (fl_positive _ Qt) as T0.
  set (A := fl (inject_Z a)) in *. set (T := fl (inject_Z t)) in *.
  assert (QH : 0 < A * 100) by lra.
  pose proof (fl_bounds _ QH) as [H1 H2]. pose proof (fl_positive _ QH) as H0.
  set (H := fl (A * 100)) in *.
  assert (QX : 0 < H / T) by (apply Qlt_shift_div_l; lra).
  pose proof (fl_bounds _ QX) as [X1 X2]. pose proof (fl_positive _ QX) as X0.
  set (X := fl (H / T)) in *.
  assert (HT : H / T * T == H) by (field; lra).
  assert (X1' : H * (1 - unit_roundoff) <= X * T).
  { rewrite <- HT at 1.
    setoid_replace (H / T * T * (1 - unit_roundoff))
      with (H / T * (1 - unit_roundoff) * T) by ring.
    apply Qmult_le_compat_r; lra. }
  assert (X2' : X * T <= H * (1 + unit_roundoff)).
  { rewrite <- HT at 1.
    setoid_replace (H / T * T * (1 + unit_roundoff))
      with (H / T * (1 + unit_roundoff) * T) by ring.
    apply Qmult_le_compat_r; lra. }
  assert (XT1 : X * (inject_Z t * (1 - unit_roundoff)) <= X * T).
  { rewrite !(Qmult_comm X). apply Qmult_le_compat_r; lra. }
  assert (XT2 : X * T <= X * (inject_Z t * (1 + unit_roundoff))).
  { rewrite !(Qmult_comm X). apply Qmult_le_compat_r; lra. }
  unfold unit_roundoff in *.
  split; [exact X0|]. split; lra.
Qed.


Lemma round_percentage_zero (t : Z) : round_percentage 0 t = 0%Z.
Proof.
  unfold round_percentage.
  assert (Z0 : fl (fl (fl (inject_Z 0) * 100) / fl (inject_Z t)) * 100 == 0).
  { rewrite (fl_of_zero (fl (fl (inject_Z 0) * 100) / fl (inject_Z t)));
      [ring|].
    rewrite (fl_of_zero (fl (inject_Z 0) * 100)); [unfold Qdiv; ring|].
    rewrite (fl_of_zero (inject_Z 0)); [ring | reflexivity]. }
  pose proof (round_half_even_near
                (fl (fl (fl (inject_Z 0) * 100) / fl (inject_Z t)) * 100)) as N.
  set (h := round_half_even _) in *. rewrite Z0 in N.
  apply Qabs_Qle_condition in N. destruct N as [N1 N2].
  assert (L : inject_Z (-1) < inject_Z h)
    by (change (inject_Z (-1)) with (- (1)); lra).
  assert (U : inject_Z h < inject_Z 1)
    by (change (inject_Z 1) with 1; lra).
  rewrite <- Zlt_Qlt in L, U. lia.
Qed.

Lemma round_percentage_nonneg (a t : Z) :
  (0 <= a)%Z -> (0 < t)%Z -> (0 <= round_percentage a t)%Z.
Proof.
  intros Ha Ht. destruct (Z.eq_dec a 0) as [->|Hne].
  - now rewrite round_percentage_zero.
  - destruct (quotient_bounds a t ltac:(lia) Ht) as (X0 & _ & _).
    unfold round_percentage.
    pose proof (round_half_even_near
                  (fl (fl (fl (inject_Z a) * 100) / fl (inject_Z t)) * 100)) as N.
    set (x := fl (fl (fl (inject_Z a) * 100) / fl (inject_Z t))) in *.
    set (h := round_half_even _) in *.
    apply Qabs_Qle_condition in N. destruct N as [N1 N2].
    assert (L : inject_Z (-1) < inject_Z h)
    by (change (inject_Z (-1)) with (- (1)); lra).
    rewrite <- Zlt_Qlt in L. lia.
Qed.

Lemma round_percentage_le_100 (a t : Z) :
  (0 <= a <= t)%Z -> (0 < t)%Z -> (round_percentage a t <= 10000)%Z.
Proof.
  intros Ha Ht. destruct (Z.eq_dec a 0) as [->|Hne].
  - now rewrite round_percentage_zero.
  - destruct (quotient_bounds a t ltac:(lia) Ht) as (X0 & U & _).
    unfold round_percentage.
    pose proof (round_half_even_near
                  (fl (fl (fl (inject_Z a) * 100) / fl (inject_Z t)) * 100)) as N.
    set (x := fl (fl (fl (inject_Z a) * 100) / fl (inject_Z t))) in *.
    set (h := round_half_even _) in *.
    apply Qabs_Qle_condition in N. destruct N as [N1 N2].
    assert (Qt : 0 < inject_Z t) by (rewrite <- (Zlt_Qlt 0); exact Ht).
    assert (Qa : inject_Z a <= inject_Z t) by (rewrite <- Zle_Qle; lia).
    assert (C : x * (1 - unit_roundoff)
                <= 100 * (1 + unit_roundoff) * (1 + unit_roundoff)
                   * (1 + unit_roundoff)).
    { apply (Qmult_lt_0_le_reg_r _ _ (inject_Z t) Qt).
      unfold unit_roundoff in *. lra. }
    assert (L : inject_Z h < inject_Z 10001)
      by (unfold unit_roundoff in *; change (inject_Z 10001) with 10001; lra).
    rewrite <- Zlt_Qlt in L. lia.
Qed.

Lemma round_percentage_full (t : Z) :
  (0 < t)%Z -> round_percentage t t = 10000%Z.
Proof.
  intros Ht. pose proof (round_percentage_le_100 t t ltac:(lia) Ht) as Hle.
  destruct (quotient_bounds t t Ht Ht) as (X0 & _ & L).
  unfold round_percentage in *.
  pose proof (round_half_even_near
                (fl (fl (fl (inject_Z t) * 100) / fl (inject_Z t)) * 100)) as N.
  set (x := fl (fl (fl (inject_Z t) * 100) / fl (inject_Z t))) in *.
  set (h := round_half_even _) in *.
  apply Qabs_Qle_condition in N. destruct N as [N1 N2].
  assert (Qt : 0 < inject_Z t) by (rewrite <- (Zlt_Qlt 0); exact Ht).
  assert (C : 100 * (1 - unit_roundoff) * (1 - unit_roundoff)
                * (1 - unit_roundoff)
              <= x * (1 + unit_roundoff)).
  { apply (Qmult_lt_0_le_reg_r _ _ (inject_Z t) Qt).
    unfold unit_roundoff in *. lra. }
  assert (G : inject_Z 9999 < inject_Z h)
    by (unfold unit_roundoff in *; change (inject_Z 9999) with 9999; lra).
  rewrite <- Zlt_Qlt in G. lia.
Qed.


End Percentage.

Section Properties.

Context {RT : Runtime}.

(** ** Classes and students *)

(** C3. In a state that satisfies the schema and holds a class with the
    given class_id, [add_class] answers 400 "Class ID already exists"
    (DuplicateKey) and leaves the whole store, hence the row of that class,
    as it was. *)
Theorem add_class_duplicate_rejected
    (d : db) (data : class_json) (cid : Z) (name : string) (c : class_row) :
  wf_db d ->
  j_class_id data = Some cid ->
  j_class_name data = Some name ->
  In c (classes d) ->
  class_id c = cid ->
  add_class data d = (Error 400 "Class ID already exists", d) /\
  In c (classes (snd (add_class data d))).
Proof.
  intros Hwf Hid Hname Hin Hc.
  assert (Hint : sqlite_int cid = true).
  { pose proof (wf_class_int d Hwf) as F. rewrite Forall_forall in F.
    rewrite <- Hc. now apply F. }
  assert (Hhas : has_class cid d = true).
  { apply has_class_true. now exists c. }
  assert (E : add_class data d = (Error 400 "Class ID already exists", d)).
  { unfold add_class. rewrite Hid, Hname. simpl.
    unfold insert_class. rewrite (bind_int_ok _ Hint). simpl.
    now rewrite Hhas. }
  split; [exact E | now rewrite E].
Qed.

(** C6. [add_student] checks no foreign key: with a registration number not
    yet in [students] and a class_id that no row of [classes] carries, it
    answers 201 and the committed store holds the new student row. *)
Theorem add_student_orphan_accepted
    (d : db) (data : student_json) (r name : string) (cid : Z) :
  j_reg_no data = Some r ->
  j_student_name data = Some name ->
  j_s_class_id data = Some cid ->
  sqlite_int cid = true ->
  ~ In r (map reg_no (students d)) ->
  has_class cid d = false ->
  add_student data d =
    (Message 201 "Student added",
     mkDb (classes d) (students d ++ [mkStudent r name cid])
          (periods d) (period_seq d) (attendance d)) /\
  In (mkStudent r name cid) (students (snd (add_student data d))).
Proof.
  intros Hr Hn Hc Hint Hfresh _.
  assert (E : add_student data d =
    (Message 201 "Student added",
     mkDb (classes d) (students d ++ [mkStudent r name cid])
          (periods d) (period_seq d) (attendance d))).
  { unfold add_student. rewrite Hr, Hn, Hc. simpl.
    unfold insert_student. rewrite (bind_int_ok _ Hint). simpl.
    apply has_student_false in Hfresh. now rewrite Hfresh. }
  split; [exact E|]. rewrite E. simpl. apply in_or_app. right. now left.
Qed.

(** C7. [get_students] with a non-empty [class_id] parameter returns exactly
    the student rows whose class_id is the integer the parameter stands for
    (every returned row matches, every matching row is returned), with no
    parameter (or an empty one, which Python takes as unset) it returns all
    student rows, and the store is not touched. *)
Theorem get_students_exact (d : db) (param : string) :
  param <> "" ->
  (exists rows,
      get_students (Some param) d = (StudentList rows, d) /\
      forall s, In s rows <->
                In s (students d) /\ numeric_of_text param = Some (s_class_id s))
  /\ get_students None d = (StudentList (students d), d)
  /\ get_students (Some "") d = (StudentList (students d), d).
Proof.
  intros Hne. split; [|split; reflexivity].
  exists (filter (class_id_is param) (students d)). split.
  - unfold get_students. apply String.eqb_neq in Hne. now rewrite Hne.
  - intros s. rewrite filter_In. unfold class_id_is.
    destruct (numeric_of_text param) as [z|].
    + rewrite Z.eqb_eq. split; intros [H1 H2]; split; auto; congruence.
    + split; intros [H1 H2]; discriminate.
Qed.

(** ** Bulk import *)

(** C9. When the uploaded content is not decodable as UTF-8,
    [bulk_add_students] answers with the one error of the decoding, reports
    no counts, and leaves the store as it was: no student row is added. *)
Theorem bulk_undecodable_rejected (d : db) (f : upload) :
  filename f <> "" ->
  decode_utf8 (content f) = None ->
  bulk_add_students (Some f) d = (BulkFailure UnicodeDecodeError, d) /\
  students (snd (bulk_add_students (Some f) d)) = students d.
Proof.
  intros Hname Hdec.
  assert (E : bulk_add_students (Some f) d = (BulkFailure UnicodeDecodeError, d)).
  { unfold bulk_add_students. apply String.eqb_neq in Hname.
    now rewrite Hname, Hdec. }
  split; [exact E | now rewrite E].
Qed.

(** ** The attendance report *)

Lemma count_period_id_some (l : list attendance_row) :
  count_period_id (map Some l) = Z.of_nat (List.length (filter has_period l)).
Proof.
  induction l as [|a l IH]; [reflexivity|].
  cbn [map count_period_id fold_right filter].
  fold (count_period_id (map Some l)). rewrite IH.
  destruct (has_period a); cbn [List.length]; lia.
Qed.

Lemma sum_case_present_some (l : list attendance_row) :
  fold_right (fun o n => case_present o + n) 0 (map Some l) =
  Z.of_nat (List.length (filter (fun a => is_present a =? 1) l)).
Proof.
  induction l as [|a l IH]; [reflexivity|].
  cbn [map fold_right filter case_present]. rewrite IH.
  destruct (is_present a =? 1); cbn [List.length]; lia.
Qed.

Lemma aggregates_of_join (s : student_row) (marks : list attendance_row) :
  let mine := filter (fun a => String.eqb (reg_no s) (a_reg_no a)) marks in
  count_period_id (left_join s marks)
    = Z.of_nat (List.length (filter has_period mine)) /\
  sum_case_present (left_join s marks) =
    Some (Z.of_nat (List.length (filter (fun a => is_present a =? 1) mine))).
Proof.
  cbv zeta. unfold left_join.
  destruct (filter (fun a => String.eqb (reg_no s) (a_reg_no a)) marks)
    as [|a l]; [now split|].
  split.
  - apply count_period_id_some.
  - cbn [map sum_case_present].
    change (Some a :: map Some l) with (map Some (a :: l)).
    now rewrite sum_case_present_some.
Qed.

Lemma find_student (r : string) (d : db) :
  In r (map reg_no (students d)) ->
  exists s, find (fun s => String.eqb (reg_no s) r) (students d) = Some s /\
            reg_no s = r.
Proof.
  intros Hin.
  destruct (find (fun s => String.eqb (reg_no s) r) (students d)) as [s|] eqn:F.
  - exists s. split; [reflexivity|].
    apply find_some in F. now apply String.eqb_eq.
  - exfalso. apply in_map_iff in Hin as [s [Hs Hin]].
    pose proof (find_none _ _ F s Hin) as N. cbn in N.
    rewrite Hs, String.eqb_refl in N. discriminate.
Qed.

(** What [get_overall_attendance] answers for a registered student. *)
Lemma get_overall_attendance_found (r : string) (d : db) :
  In r (map reg_no (students d)) ->
  exists name,
    let total := Z.of_nat (List.length (counted_marks_of r d)) in
    let attended := Z.of_nat (List.length (present_marks_of r d)) in
    get_overall_attendance r d =
      (AttendanceReport
         (mkReport r name total attended
            (if 0 <? total then round_percentage attended total else 0)), d).
Proof.
  intros Hin. destruct (find_student r d Hin) as [s [F Hs]].
  exists (student_name s). cbv zeta.
  unfold get_overall_attendance, attendance_query. rewrite F.
  destruct (aggregates_of_join s (attendance d)) as [Hc Hsum].
  unfold report_of_row. rewrite Hc, Hsum, Hs.
  fold (marks_of r d). fold (counted_marks_of r d). fold (present_marks_of r d).
  replace (negb (Z.of_nat (List.length (counted_marks_of r d)) =? 0) &&
           (0 <? Z.of_nat (List.length (counted_marks_of r d))))%bool
    with (0 <? Z.of_nat (List.length (counted_marks_of r d))); [reflexivity|].
  destruct (Z.ltb_spec 0 (Z.of_nat (List.length (counted_marks_of r d))));
    destruct (Z.eqb_spec (Z.of_nat (List.length (counted_marks_of r d))) 0);
    cbn; try reflexivity; lia.
Qed.

Lemma present_le_marks (r : string) (d : db) :
  (List.length (present_marks_of r d) <= List.length (marks_of r d))%nat.
Proof. unfold present_marks_of. apply filter_length_le. Qed.

Lemma counted_le_marks (r : string) (d : db) :
  (List.length (counted_marks_of r d) <= List.length (marks_of r d))%nat.
Proof. unfold counted_marks_of. apply filter_length_le. Qed.

Lemma filter_all_true {A : Type} (p : A -> bool) (l : list A) :
  forallb p l = true -> filter p l = l.
Proof.
  induction l as [|a l IH]; cbn; [reflexivity|].
  intros H. apply andb_true_iff in H as [Ha Hl]. now rewrite Ha, IH.
Qed.


(** C10 (as amended). For a registered reg_no the report has
    0 <= total_classes, 0 <= attended_classes and 0 <= percentage; when
    every mark of the student carries a period_id it also has
    attended_classes <= total_classes and percentage <= 100 (that is 10000
    hundredths). *)
Theorem attendance_report_bounds (r : string) (d : db) :
  In r (map reg_no (students d)) ->
  exists rep,
    get_overall_attendance r d = (AttendanceReport rep, d) /\
    0 <= total_classes rep /\ 0 <= attended_classes rep /\
    0 <= attendance_percentage rep /\
    (forallb has_period (marks_of r d) = true ->
     attended_classes rep <= total_classes rep /\
     attendance_percentage rep <= 10000).
Proof.
  intros Hin. destruct (get_overall_attendance_found r d Hin) as [name E].
  cbv zeta in E. eexists. split; [exact E|].
  cbn [total_classes attended_classes attendance_percentage].
  pose proof (present_le_marks r d) as Hle.
  assert (Hall : forallb has_period (marks_of r d) = true ->
                 counted_marks_of r d = marks_of r d)
    by apply filter_all_true.
  set (t := Z.of_nat (List.length (counted_marks_of r d))) in *.
  set (a := Z.of_nat (List.length (present_marks_of r d))) in *.
  assert (Ha : 0 <= a) by (unfold a; lia).
  assert (Ht : 0 <= t) by (unfold t; lia).
  split; [exact Ht|]. split; [exact Ha|]. split.
  - destruct (Z.ltb_spec 0 t); [|lia]. now apply round_percentage_nonneg.
  - intros Hp. assert (Hat : a <= t).
    { unfold a, t. rewrite (Hall Hp). lia. }
    split; [exact Hat|]. destruct (Z.ltb_spec 0 t); [|lia].
    apply round_percentage_le_100; lia.
Qed.

(** ** Marking attendance *)

Lemma mark_one_inv (pid : option Z) (record : mark_json) (w w' : db) :
  mark_one pid record w = Ok w' ->
  exists r v,
    j_m_reg_no record = Some r /\ j_is_present record = Some v /\
    match pid with Some p => sqlite_int p = true | None => True end /\
    sqlite_int v = true /\
    w' = mkDb (classes w) (students w) (periods w) (period_seq w)
              (filter (fun a => negb (conflicts pid r a)) (attendance w)
                 ++ [mkAttendance pid r v]).
Proof.
  unfold mark_one, getitem, replace_attendance, bind_nullable_int, bind,
    bind_int.
  destruct (j_m_reg_no record) as [r|]; [|discriminate].
  destruct (j_is_present record) as [v|]; [|discriminate].
  destruct pid as [p|].
  - destruct (sqlite_int p) eqn:Hpid; [|discriminate].
    destruct (sqlite_int v) eqn:Hv; [|discriminate].
    intros H. injection H as <-. exists r, v. repeat split; assumption.
  - destruct (sqlite_int v) eqn:Hv; [|discriminate].
    intros H. injection H as <-. exists r, v. repeat split; assumption.
Qed.

Lemma mark_one_malformed (pid : option Z) (record : mark_json) (w : db) :
  well_formed_mark record = false -> exists e, mark_one pid record w = Raise e.
Proof.
  unfold well_formed_mark, mark_one, getitem, replace_attendance,
    bind_nullable_int, bind, bind_int.
  destruct (j_m_reg_no record) as [r|]; [|eauto].
  destruct (j_is_present record) as [v|]; [|eauto].
  intros ->. destruct pid as [p|]; [destruct (sqlite_int p)|]; eauto.
Qed.

Lemma mark_loop_app (pid : option Z) (l1 l2 : list mark_json) (w : db) :
  mark_loop pid (l1 ++ l2) w =
  (w' <- mark_loop pid l1 w ;; mark_loop pid l2 w').
Proof.
  revert w. induction l1 as [|x l1 IH]; intros w; [reflexivity|].
  cbn [app mark_loop]. destruct (mark_one pid x w) as [w1|e]; cbn [bind];
    [apply IH | reflexivity].
Qed.

Lemma same_mark_refl (pid : Z) (r : string) (v : Z) :
  same_mark pid r (mkAttendance (Some pid) r v) = true.
Proof. unfold same_mark. cbn. now rewrite Z.eqb_refl, String.eqb_refl. Qed.

Lemma same_mark_inv (pid : Z) (r : string) (a : attendance_row) :
  same_mark pid r a = true -> a_period_id a = Some pid /\ a_reg_no a = r.
Proof.
  unfold same_mark. destruct (a_period_id a) as [p|]; [|discriminate].
  intros H. apply andb_true_iff in H as [H1 H2].
  apply Z.eqb_eq in H1. apply String.eqb_eq in H2. now subst.
Qed.

Lemma same_mark_other (pid : Z) (r r' : string) (a : attendance_row) :
  r' <> r -> same_mark pid r a = true -> same_mark pid r' a = false.
Proof.
  intros Hne H. apply same_mark_inv in H as [Hp Hr].
  unfold same_mark. rewrite Hp. apply andb_false_iff. right.
  apply String.eqb_neq. congruence.
Qed.

(** The rows of the pair [(pid, r)] after one upsert of [(pid, r0, v0)]. *)
Lemma upsert_rows (pid : Z) (r r0 : string) (v0 : Z)
    (marks : list attendance_row) :
  filter (same_mark pid r)
         (filter (fun a => negb (same_mark pid r0 a)) marks
            ++ [mkAttendance (Some pid) r0 v0]) =
  if String.eqb r0 r then [mkAttendance (Some pid) r v0]
  else filter (same_mark pid r) marks.
Proof.
  rewrite filter_app. destruct (String.eqb_spec r0 r) as [->|Hne].
  - cbn [filter]. rewrite same_mark_refl.
    replace (filter (same_mark pid r)
               (filter (fun a => negb (same_mark pid r a)) marks))
      with (@nil attendance_row); [reflexivity|].
    induction marks as [|a l IH]; [reflexivity|]. cbn [filter].
    destruct (same_mark pid r a) eqn:E; cbn [negb filter]; [exact IH|].
    now rewrite E.
  - cbn [filter].
    replace (same_mark pid r (mkAttendance (Some pid) r0 v0)) with false.
    + rewrite app_nil_r. induction marks as [|a l IH]; [reflexivity|].
      cbn [filter]. destruct (same_mark pid r0 a) eqn:E0; cbn [negb filter].
      * rewrite (same_mark_other pid r0 r a); auto.
      * now rewrite IH.
    + symmetry. unfold same_mark. cbn. apply andb_false_iff. right.
      now apply String.eqb_neq.
Qed.

(** What a batch that runs to its end leaves for a pair: the one row of its
    last record for that registration number, or the rows that were there. *)
Lemma mark_loop_rows (pid : Z) (records : list mark_json) (r : string) :
  forall w w', mark_loop (Some pid) records w = Ok w' ->
  filter (same_mark pid r) (attendance w') =
  match last_mark r records with
  | Some v => [mkAttendance (Some pid) r v]
  | None => filter (same_mark pid r) (attendance w)
  end.
Proof.
  induction records as [|record rest IH]; intros w w' H.
  - cbn in H. injection H as <-. reflexivity.
  - cbn [mark_loop] in H.
    destruct (mark_one (Some pid) record w) as [w1|e] eqn:E1; [|discriminate].
    cbn [bind] in H. rewrite (IH _ _ H). cbn [last_mark].
    destruct (last_mark r rest) as [v|]; [reflexivity|].
    apply mark_one_inv in E1
      as (r0 & v0 & Hr0 & Hv0 & _ & _ & ->).
    rewrite Hr0, Hv0. cbn [attendance conflicts]. rewrite upsert_rows.
    now destruct (String.eqb r0 r).
Qed.

Lemma mark_attendance_saved (data : attendance_json) (d d' : db)
    (pid : option Z) (records : list mark_json) (a : reply) :
  j_period_id data = Some pid ->
  j_attendance data = Some records ->
  mark_attendance data d = (a, d') ->
  a = Message 200 "Attendance saved" ->
  mark_loop pid records d = Ok d'.
Proof.
  intros Hp Hl H ->. unfold mark_attendance in H. rewrite Hp, Hl in H.
  cbn [getitem bind] in H.
  destruct (mark_loop pid records d) as [w|e]; [|discriminate].
  now injection H as <-.
Qed.

(** C2. When two successive calls of [mark_attendance] for the same period
    both name a registration number and both answer "Attendance saved", the
    store holds exactly one row for that (period_id, reg_no) pair, and its
    is_present is the one the second call gave last for it. *)
Theorem mark_attendance_upsert
    (d d1 d2 : db) (first second : attendance_json) (pid : Z)
    (l1 l2 : list mark_json) (r : string) (v1 v2 : Z) :
  j_period_id first = Some (Some pid) -> j_attendance first = Some l1 ->
  j_period_id second = Some (Some pid) -> j_attendance second = Some l2 ->
  last_mark r l1 = Some v1 -> last_mark r l2 = Some v2 ->
  mark_attendance first d = (Message 200 "Attendance saved", d1) ->
  mark_attendance second d1 = (Message 200 "Attendance saved", d2) ->
  filter (same_mark pid r) (attendance d1) = [mkAttendance (Some pid) r v1] /\
  filter (same_mark pid r) (attendance d2) = [mkAttendance (Some pid) r v2].
Proof.
  intros Hp1 Hl1 Hp2 Hl2 Hv1 Hv2 H1 H2.
  apply (mark_attendance_saved _ _ _ (Some pid) l1) in H1; auto.
  apply (mark_attendance_saved _ _ _ (Some pid) l2) in H2; auto.
  rewrite (mark_loop_rows pid l1 r _ _ H1), Hv1.
  rewrite (mark_loop_rows pid l2 r _ _ H2), Hv2. now split.
Qed.

(** C4 (as amended). [mark_attendance] commits once, after the loop: when any
    record of the batch is malformed (reg_no or is_present missing, or
    is_present not an SQLite integer) the handler raises before the commit
    and the store is exactly what it was before the call, so none of the
    upserts of the batch is kept. *)
Theorem mark_attendance_all_or_nothing
    (d : db) (data : attendance_json) (pid : option Z)
    (before after : list mark_json) (bad : mark_json) :
  j_period_id data = Some pid ->
  j_attendance data = Some (before ++ bad :: after) ->
  well_formed_mark bad = false ->
  exists e, mark_attendance data d = (Unhandled e, d).
Proof.
  intros Hp Hl Hbad. unfold mark_attendance. rewrite Hp, Hl.
  cbn [getitem bind]. rewrite mark_loop_app.
  destruct (mark_loop pid before d) as [w|e]; cbn [bind]; [|eauto].
  cbn [mark_loop]. destruct (mark_one_malformed pid bad w Hbad) as [e ->].
  cbn [bind]. eauto.
Qed.

(** ** Period identifiers *)

Lemma max_period_id_app (l : list period_row) (p : period_row) :
  max_period_id (l ++ [p]) = Z.max (max_period_id l) (Z.max (period_id p) 0).
Proof.
  induction l as [|x l IH].
  - unfold max_period_id. cbn [app fold_right]. lia.
  - cbn [app]. unfold max_period_id in *. cbn [fold_right]. rewrite IH. lia.
Qed.

Lemma max_period_id_nonneg (l : list period_row) : 0 <= max_period_id l.
Proof.
  induction l as [|x l IH]; [reflexivity|].
  unfold max_period_id in *. cbn [fold_right]. lia.
Qed.

Lemma insert_period_inv (cid : Z) (subject date : string) (number : Z)
    (d d' : db) (pid : Z) :
  insert_period cid subject date number d = Ok (d', pid) ->
  pid = high_water d + 1 /\ high_water d < INT64_MAX /\
  d' = mkDb (classes d) (students d)
            (periods d ++ [mkPeriod pid cid subject date number])
            pid (attendance d).
Proof.
  unfold insert_period, bind, bind_int. fold (high_water d).
  destruct (sqlite_int cid); [|discriminate].
  destruct (sqlite_int number); [|discriminate].
  destruct (Z.leb_spec INT64_MAX (high_water d)) as [|Hlt]; [discriminate|].
  intros E. injection E as <- <-. repeat split; auto.
Qed.

Lemma add_class_quiet (data : class_json) (d : db) : quiet d (add_class data d).
Proof.
  unfold add_class, quiet.
  destruct (_ <- getitem "class_id" (j_class_id data) ;; _) as [d'|e] eqn:E.
  - unfold getitem, bind in E.
    destruct (j_class_id data); [|discriminate].
    destruct (j_class_name data); [|discriminate].
    apply insert_class_inv in E as (_ & _ & ->). cbn. repeat split; discriminate.
  - destruct e; cbn; repeat split; discriminate.
Qed.

Lemma add_student_quiet (data : student_json) (d : db) :
  quiet d (add_student data d).
Proof.
  unfold add_student, quiet.
  destruct (_ <- getitem "reg_no" (j_reg_no data) ;; _) as [d'|e] eqn:E.
  - unfold getitem, bind in E.
    destruct (j_reg_no data); [|discriminate].
    destruct (j_student_name data); [|discriminate].
    destruct (j_s_class_id data); [|discriminate].
    apply insert_student_inv in E as (_ & _ & ->). cbn. repeat split; discriminate.
  - destruct e; cbn; repeat split; discriminate.
Qed.

Lemma students_grow_refl (w : db) : students_grow w w.
Proof. repeat split. exists []. now rewrite app_nil_r. Qed.

Lemma students_grow_trans (w1 w2 w3 : db) :
  students_grow w1 w2 -> students_grow w2 w3 -> students_grow w1 w3.
Proof.
  intros (A1 & A2 & A3 & A4 & m1 & A5) (B1 & B2 & B3 & B4 & m2 & B5).
  repeat split; try congruence. exists (m1 ++ m2).
  now rewrite B5, A5, app_assoc.
Qed.

Lemma bulk_row_grow (row : list string) (w w' : db) (a s a' s' : Z) :
  bulk_row row (w, a, s) = Ok (w', a', s') -> students_grow w w'.
Proof.
  unfold bulk_row.
  destruct row as [|f0 [|f1 [|f2 row]]];
    try (intros H; injection H as <- <- <-; apply students_grow_refl).
  destruct (int_of_str (strip f2)) as [cid|];
    [|intros H; injection H as <- <- <-; apply students_grow_refl].
  destruct (insert_student (strip f0) (strip f1) cid w) as [w1|e] eqn:E.
  - intros H. injection H as <- <- <-.
    apply insert_student_inv in E as (_ & _ & ->).
    repeat split. cbn. eauto.
  - destruct e; try discriminate;
      intros H; injection H as <- <- <-; apply students_grow_refl.
Qed.

Lemma bulk_loop_grow (rows : csv_rows) :
  forall w a s w' a' s',
  bulk_loop rows (w, a, s) = Ok (w', a', s') -> students_grow w w'.
Proof.
  induction rows as [| |row rest IH]; intros w a s w' a' s' H.
  - injection H as <- <- <-. apply students_grow_refl.
  - discriminate.
  - cbn [bulk_loop] in H.
    destruct (bulk_row row (w, a, s)) as [[[w1 a1] s1]|e] eqn:E; [|discriminate].
    cbn [bind] in H. apply bulk_row_grow in E. apply IH in H.
    eapply students_grow_trans; eassumption.
Qed.

(** What [bulk_add_students] leaves when it reports counts. *)
Lemma bulk_add_students_cases (file : option upload) (d : db) :
  (exists a, bulk_add_students file d = (a, d) /\
             (forall added skipped, a <> BulkSummary added skipped) /\
             (forall pid, a <> PeriodCreated pid)) \/
  (exists added skipped w,
      bulk_add_students file d = (BulkSummary added skipped, w) /\
      students_grow d w).
Proof.
  unfold bulk_add_students. destruct file as [f|].
  2:{ left. eexists. split; [reflexivity | split; discriminate]. }
  destruct (String.eqb (filename f) "").
  { left. eexists. split; [reflexivity | split; discriminate]. }
  destruct (decode_utf8 (content f)) as [text|].
  2:{ left. eexists. split; [reflexivity | split; discriminate]. }
  destruct (skip_header (csv_reader text)) as [rows|e]; cbn [bind].
  2:{ left. eexists. split; [reflexivity | split; discriminate]. }
  destruct (bulk_loop rows (d, 0, 0)) as [[[w a] s]|e] eqn:E.
  - right. exists a, s, w. split; [reflexivity|]. eapply bulk_loop_grow, E.
  - left. eexists. split; [reflexivity | split; discriminate].
Qed.

Lemma bulk_add_students_quiet (file : option upload) (d : db) :
  quiet d (bulk_add_students file d).
Proof.
  destruct (bulk_add_students_cases file d)
    as [(a & -> & _ & Ha) | (added & skipped & w & -> & G)]; unfold quiet; cbn.
  - repeat split. exact Ha.
  - destruct G as (_ & G2 & G3 & _). repeat split; auto; discriminate.
Qed.

Lemma mark_loop_marks_only (pid : option Z) (records : list mark_json) :
  forall w w', mark_loop pid records w = Ok w' ->
  classes w' = classes w /\ students w' = students w /\
  periods w' = periods w /\ period_seq w' = period_seq w.
Proof.
  induction records as [|record rest IH]; intros w w' H.
  - injection H as <-. auto.
  - cbn [mark_loop] in H.
    destruct (mark_one pid record w) as [w1|e] eqn:E; [|discriminate].
    cbn [bind] in H. apply IH in H as (H1 & H2 & H3 & H4).
    apply mark_one_inv in E as (r & v & _ & _ & _ & _ & ->).
    cbn in *. auto.
Qed.

Lemma mark_attendance_quiet (data : attendance_json) (d : db) :
  quiet d (mark_attendance data d).
Proof.
  unfold mark_attendance, quiet.
  destruct (_ <- getitem "period_id" (j_period_id data) ;; _) as [w|e] eqn:E.
  - unfold getitem, bind in E.
    destruct (j_period_id data) as [pid|]; [|discriminate].
    destruct (j_attendance data) as [l|]; [|discriminate].
    apply mark_loop_marks_only in E as (_ & _ & H3 & H4).
    cbn. repeat split; auto; discriminate.
  - cbn. repeat split; discriminate.
Qed.

Lemma get_students_quiet (arg : option string) (d : db) :
  quiet d (get_students arg d).
Proof.
  unfold get_students, quiet. destruct arg as [param|];
    [destruct (String.eqb param "")|]; cbn; repeat split; discriminate.
Qed.

Lemma get_overall_attendance_quiet (r : string) (d : db) :
  quiet d (get_overall_attendance r d).
Proof.
  unfold get_overall_attendance, quiet.
  destruct (attendance_query r d) as [[[[r0 r1] r2] r3]|];
    cbn; repeat split; discriminate.
Qed.

(** [create_period] either fails and changes nothing, or hands out the
    identifier just above the high-water mark, which becomes the mark. *)
Lemma create_period_cases (data : period_json) (d : db) :
  (exists e, create_period data d = (Unhandled e, d)) \/
  (exists pid d',
      create_period data d = (PeriodCreated pid, d') /\
      pid = high_water d + 1 /\ high_water d' = pid).
Proof.
  unfold create_period.
  destruct (_ <- getitem "class_id" (j_p_class_id data) ;; _)
    as [[d' pid]|e] eqn:E; [|left; eauto].
  right. exists pid, d'. split; [reflexivity|].
  unfold getitem, bind in E.
  destruct (j_p_class_id data); [|discriminate].
  destruct (j_subject_name data); [|discriminate].
  destruct (j_period_date data); [|discriminate].
  destruct (j_period_number data); [|discriminate].
  apply insert_period_inv in E as (Hpid & _ & ->). split; [exact Hpid|].
  unfold high_water in *. cbn [period_seq periods].
  rewrite max_period_id_app. cbn [period_id].
  pose proof (max_period_id_nonneg (periods d)). lia.
Qed.

(** No handler lowers the high-water mark, and an identifier handed out is
    above the mark it found and is the mark it leaves. *)
Lemma handle_high_water (q : request) (d : db) :
  high_water d <= high_water (snd (handle q d)) /\
  forall pid, fst (handle q d) = PeriodCreated pid ->
              high_water d < pid /\ high_water (snd (handle q d)) = pid.
Proof.
  assert (Q : forall x, quiet d x ->
    high_water d <= high_water (snd x) /\
    forall pid, fst x = PeriodCreated pid ->
                high_water d < pid /\ high_water (snd x) = pid).
  { intros x (H1 & H2 & H3). unfold high_water. rewrite H1, H2.
    split; [lia|]. intros pid E. now apply H3 in E. }
  destruct q; cbn [handle].
  - apply Q, add_class_quiet.
  - apply Q. unfold quiet, get_classes. cbn. repeat split; discriminate.
  - apply Q, add_student_quiet.
  - apply Q, get_students_quiet.
  - apply Q, bulk_add_students_quiet.
  - destruct (create_period_cases data d)
      as [[e ->] | (pid & d' & -> & Hp & Hw)]; cbn [fst snd].
    + split; [lia | discriminate].
    + split; [lia|]. intros pid' E. injection E as <-. lia.
  - apply Q, mark_attendance_quiet.
  - apply Q, get_overall_attendance_quiet.
Qed.

Lemma serve_cons (q : request) (rest : list request) (d : db) :
  serve (q :: rest) d =
  (fst (handle q d) :: fst (serve rest (snd (handle q d))),
   snd (serve rest (snd (handle q d)))).
Proof.
  cbn [serve]. destruct (handle q d) as [a d1]. cbn [fst snd].
  now destruct (serve rest d1).
Qed.

Lemma created_periods_above (qs : list request) :
  forall d,
  Forall (fun pid => high_water d < pid) (created_periods (fst (serve qs d)))
  /\ StronglySorted Z.lt (created_periods (fst (serve qs d))).
Proof.
  induction qs as [|q rest IH]; intros d.
  - split; constructor.
  - rewrite serve_cons. cbn [fst created_periods flat_map].
    fold (created_periods (fst (serve rest (snd (handle q d))))).
    destruct (IH (snd (handle q d))) as [Hall Hsorted].
    destruct (handle_high_water q d) as [Hmono Hnew].
    destruct (fst (handle q d)) eqn:A; cbn [app];
      try (split; [|exact Hsorted];
           eapply Forall_impl; [|exact Hall]; cbn; intros; lia).
    destruct (Hnew pid eq_refl) as [Hlt Heq]. rewrite Heq in Hall.
    split.
    + constructor; [exact Hlt|].
      eapply Forall_impl; [|exact Hall]. cbn. intros. lia.
    + constructor; [exact Hsorted | exact Hall].
Qed.

Lemma strongly_sorted_nodup (l : list Z) : StronglySorted Z.lt l -> NoDup l.
Proof.
  induction 1 as [|a l Hs IH Hall]; constructor; [|exact IH].
  intros Hin. rewrite Forall_forall in Hall. specialize (Hall a Hin). lia.
Qed.

(** C5. Whatever requests are served from whatever state, the period_id
    values handed out by the successful [create_period] calls among them are
    strictly increasing in call order, hence pairwise distinct. *)
Theorem created_period_ids_increase (qs : list request) (d : db) :
  StronglySorted Z.lt (created_periods (fst (serve qs d))) /\
  NoDup (created_periods (fst (serve qs d))).
Proof.
  destruct (created_periods_above qs d) as [_ Hs].
  split; [exact Hs | now apply strongly_sorted_nodup].
Qed.

(** ** The schema constraints hold in every reachable state *)

Lemma nodup_snoc {A : Type} (l : list A) (x : A) :
  NoDup l -> ~ In x l -> NoDup (l ++ [x]).
Proof.
  intros Hl Hx. induction Hl as [|a l Ha Hl IH]; cbn.
  - constructor; [intros [] | constructor].
  - constructor.
    + rewrite in_app_iff. intros [H|[H|[]]]; [now apply Ha|].
      apply Hx. now left.
    + apply IH. intros H. apply Hx. now right.
Qed.

Lemma filter_filter_comm {A : Type} (p q : A -> bool) (l : list A) :
  filter p (filter q l) = filter q (filter p l).
Proof.
  induction l as [|a l IH]; [reflexivity|]. cbn [filter].
  destruct (q a) eqn:Q, (p a) eqn:P; cbn [filter];
    rewrite ?Q, ?P, ?IH; reflexivity.
Qed.

(** Deleting rows of [attendance] keeps its keys distinct. *)
Lemma mark_keys_after_delete
    (keep : attendance_row -> bool) (marks : list attendance_row) :
  NoDup (map mark_key marks) -> NoDup (map mark_key (filter keep marks)).
Proof.
  induction marks as [|a marks IH]; cbn; intros H; [constructor|].
  inversion H as [|? ? Hnot Hrest]; subst.
  destruct (keep a); cbn; [|now apply IH].
  constructor; [|now apply IH].
  intros Hin. apply Hnot. apply in_map_iff in Hin as [b [Hb Hin]].
  apply filter_In in Hin as [Hin _]. apply in_map_iff. now exists b.
Qed.

Lemma init_db_wf : wf_db init_db.
Proof. constructor; cbn; constructor. Qed.

Lemma insert_class_wf (cid : Z) (name dept : string) (d d' : db) :
  wf_db d -> insert_class cid name dept d = Ok d' -> wf_db d'.
Proof.
  intros [W1 W2 W3 W4 W5 W6] H.
  apply insert_class_inv in H as (Hint & Hnew & ->).
  constructor; cbn; auto.
  - rewrite map_app. cbn. apply nodup_snoc; [exact W1|].
    intros Hin. apply in_map_iff in Hin as [c [Hc Hin]].
    assert (has_class cid d = true) by (apply has_class_true; eauto).
    congruence.
  - apply Forall_app. split; [exact W2|]. now constructor.
Qed.

Lemma insert_student_wf (r name : string) (cid : Z) (d d' : db) :
  wf_db d -> insert_student r name cid d = Ok d' -> wf_db d'.
Proof.
  intros [W1 W2 W3 W4 W5 W6] H.
  apply insert_student_inv in H as (Hint & Hnew & ->).
  constructor; cbn; auto.
  rewrite map_app. cbn. apply nodup_snoc; [exact W3|].
  now apply has_student_false.
Qed.

Lemma max_period_id_bound (l : list period_row) (m : Z) :
  0 <= m -> Forall (fun p => 0 < period_id p <= m) l -> max_period_id l <= m.
Proof.
  intros Hm H. induction H as [|p l Hp Hl IH]; unfold max_period_id in *;
    cbn [fold_right]; lia.
Qed.

Lemma insert_period_wf (cid : Z) (subject date : string) (number : Z)
    (d d' : db) (pid : Z) :
  wf_db d -> insert_period cid subject date number d = Ok (d', pid) ->
  wf_db d'.
Proof.
  intros [W1 W2 W3 W4 W5 W6] H.
  apply insert_period_inv in H as (Hpid & _ & ->).
  assert (Hseq : period_seq d < pid) by (unfold high_water in Hpid; lia).
  assert (Hpos : 0 < pid).
  { pose proof (max_period_id_nonneg (periods d)).
    unfold high_water in Hpid. lia. }
  constructor; cbn; auto.
  - rewrite map_app. cbn. apply nodup_snoc; [exact W4|].
    intros Hin. apply in_map_iff in Hin as [p [Hp Hin]].
    rewrite Forall_forall in W5. specialize (W5 p Hin). lia.
  - apply Forall_app. split.
    + eapply Forall_impl; [|exact W5]. cbn. intros. lia.
    + constructor; [cbn; lia | constructor].
Qed.

Lemma mark_one_wf (pid : option Z) (record : mark_json) (w w' : db) :
  wf_db w -> mark_one pid record w = Ok w' -> wf_db w'.
Proof.
  intros [W1 W2 W3 W4 W5 W6] H.
  apply mark_one_inv in H as (r & v & _ & _ & _ & _ & ->).
  constructor; cbn; auto.
  rewrite filter_app, map_app.
  assert (Hrest : NoDup (map mark_key
            (filter has_period
               (filter (fun a => negb (conflicts pid r a)) (attendance w))))).
  { rewrite filter_filter_comm. now apply mark_keys_after_delete. }
  destruct pid as [p|]; cbn [filter has_period a_period_id map];
    [|now rewrite app_nil_r].
  apply nodup_snoc; [exact Hrest|].
  intros Hin. apply in_map_iff in Hin as [a [Ha Hin]].
  apply filter_In in Hin as [Hin _]. apply filter_In in Hin as [_ Hneg].
  unfold mark_key in Ha. injection Ha as Hp Hr.
  cbn [conflicts] in Hneg. unfold same_mark in Hneg.
  rewrite Hp, Hr, Z.eqb_refl, String.eqb_refl in Hneg. discriminate.
Qed.

Lemma mark_loop_wf (pid : option Z) (records : list mark_json) :
  forall w w', wf_db w -> mark_loop pid records w = Ok w' -> wf_db w'.
Proof.
  induction records as [|record rest IH]; intros w w' W H.
  - now injection H as <-.
  - cbn [mark_loop] in H.
    destruct (mark_one pid record w) as [w1|e] eqn:E; [|discriminate].
    cbn [bind] in H. eapply IH; [|exact H]. eapply mark_one_wf; eassumption.
Qed.

Lemma bulk_row_wf (row : list string) (w w' : db) (a s a' s' : Z) :
  wf_db w -> bulk_row row (w, a, s) = Ok (w', a', s') -> wf_db w'.
Proof.
  intros W. unfold bulk_row.
  destruct row as [|f0 [|f1 [|f2 row]]];
    try (intros H; injection H as <- <- <-; exact W).
  destruct (int_of_str (strip f2)) as [cid|];
    [|intros H; injection H as <- <- <-; exact W].
  destruct (insert_student (strip f0) (strip f1) cid w) as [w1|e] eqn:E.
  - intros H. injection H as <- <- <-. eapply insert_student_wf; eassumption.
  - destruct e; try discriminate; intros H; injection H as <- <- <-; exact W.
Qed.

Lemma bulk_loop_wf (rows : csv_rows) :
  forall w a s w' a' s',
  wf_db w -> bulk_loop rows (w, a, s) = Ok (w', a', s') -> wf_db w'.
Proof.
  induction rows as [| |row rest IH]; intros w a s w' a' s' W H.
  - now injection H as <- <- <-.
  - discriminate.
  - cbn [bulk_loop] in H.
    destruct (bulk_row row (w, a, s)) as [[[w1 a1] s1]|e] eqn:E; [|discriminate].
    cbn [bind] in H. eapply IH; [|exact H]. eapply bulk_row_wf; eassumption.
Qed.

Lemma handle_wf (q : request) (d : db) :
  wf_db d -> wf_db (snd (handle q d)).
Proof.
  intros W. destruct q; cbn [handle].
  - unfold add_class.
    destruct (_ <- getitem "class_id" (j_class_id data) ;; _) as [d'|e] eqn:E.
    + unfold getitem, bind in E.
      destruct (j_class_id data); [|discriminate].
      destruct (j_class_name data); [|discriminate].
      eapply insert_class_wf; eassumption.
    + now destruct e.
  - exact W.
  - unfold add_student.
    destruct (_ <- getitem "reg_no" (j_reg_no data) ;; _) as [d'|e] eqn:E.
    + unfold getitem, bind in E.
      destruct (j_reg_no data); [|discriminate].
      destruct (j_student_name data); [|discriminate].
      destruct (j_s_class_id data); [|discriminate].
      eapply insert_student_wf; eassumption.
    + now destruct e.
  - unfold get_students. destruct class_id_arg as [param|];
      [destruct (String.eqb param "")|]; exact W.
  - unfold bulk_add_students. destruct file as [f|]; [|exact W].
    destruct (String.eqb (filename f) ""); [exact W|].
    destruct (decode_utf8 (content f)) as [text|]; [|exact W].
    destruct (skip_header (csv_reader text)) as [rows|e]; cbn [bind]; [|exact W].
    destruct (bulk_loop rows (d, 0, 0)) as [[[w a] s]|e] eqn:E; [|exact W].
    eapply bulk_loop_wf; eassumption.
  - unfold create_period.
    destruct (_ <- getitem "class_id" (j_p_class_id data) ;; _)
      as [[d' pid]|e] eqn:E; [|exact W].
    unfold getitem, bind in E.
    destruct (j_p_class_id data); [|discriminate].
    destruct (j_subject_name data); [|discriminate].
    destruct (j_period_date data); [|discriminate].
    destruct (j_period_number data); [|discriminate].
    eapply insert_period_wf; eassumption.
  - unfold mark_attendance.
    destruct (_ <- getitem "period_id" (j_period_id data) ;; _) as [w|e] eqn:E;
      [|exact W].
    unfold getitem, bind in E.
    destruct (j_period_id data) as [pid|]; [|discriminate].
    destruct (j_attendance data) as [l|]; [|discriminate].
    eapply mark_loop_wf; eassumption.
  - unfold get_overall_attendance.
    destruct (attendance_query r d) as [[[[r0 r1] r2] r3]|]; exact W.
Qed.

Lemma serve_wf (qs : list request) :
  forall d, wf_db d -> wf_db (snd (serve qs d)).
Proof.
  induction qs as [|q rest IH]; intros d W; [exact W|].
  rewrite serve_cons. cbn [snd]. apply IH. now apply handle_wf.
Qed.

(** Every state the service reaches from [init_db] satisfies the schema. *)
Lemma reachable_wf (d : db) : reachable d -> wf_db d.
Proof. intros [qs <-]. apply serve_wf, init_db_wf. Qed.

(** ** The turns of the bulk loop *)

Lemma bulk_row_short (row : list string) (st : db * Z * Z) :
  (List.length row < 3)%nat -> bulk_row row st = Ok st.
Proof.
  destruct st as [[w a] s].
  destruct row as [|f0 [|f1 [|f2 row]]]; cbn; intros H; try reflexivity; lia.
Qed.

Lemma bulk_row_unparsed (f0 f1 f2 : string) (more : list string)
    (w : db) (added skipped : Z) :
  int_of_str (strip f2) = None ->
  bulk_row (f0 :: f1 :: f2 :: more) (w, added, skipped) =
  Ok (w, added, skipped + 1).
Proof. intros H. cbn. now rewrite H. Qed.

Lemma bulk_row_duplicate (f0 f1 f2 : string) (more : list string)
    (w : db) (added skipped cid : Z) :
  int_of_str (strip f2) = Some cid ->
  sqlite_int cid = true ->
  In (strip f0) (map reg_no (students w)) ->
  bulk_row (f0 :: f1 :: f2 :: more) (w, added, skipped) =
  Ok (w, added, skipped + 1).
Proof.
  intros H Hint Hdup. cbn. rewrite H. unfold insert_student.
  rewrite (bind_int_ok _ Hint). cbn [bind].
  apply has_student_true in Hdup. now rewrite Hdup.
Qed.

Lemma bulk_row_added (f0 f1 f2 : string) (more : list string)
    (w : db) (added skipped cid : Z) :
  int_of_str (strip f2) = Some cid ->
  sqlite_int cid = true ->
  ~ In (strip f0) (map reg_no (students w)) ->
  bulk_row (f0 :: f1 :: f2 :: more) (w, added, skipped) =
  Ok (mkDb (classes w)
           (students w ++ [mkStudent (strip f0) (strip f1) cid])
           (periods w) (period_seq w) (attendance w),
      added + 1, skipped).
Proof.
  intros H Hint Hnew. cbn. rewrite H. unfold insert_student.
  rewrite (bind_int_ok _ Hint). cbn [bind].
  apply has_student_false in Hnew. now rewrite Hnew.
Qed.

(** A row whose class_id parses to an integer outside the 64-bit range
    raises [OverflowError], which the loop does not catch. *)
Lemma bulk_row_overflow (f0 f1 f2 : string) (more : list string)
    (w : db) (added skipped cid : Z) :
  int_of_str (strip f2) = Some cid ->
  sqlite_int cid = false ->
  bulk_row (f0 :: f1 :: f2 :: more) (w, added, skipped) = Raise OverflowError.
Proof.
  intros H Hint. cbn. rewrite H. unfold insert_student.
  now rewrite (bind_int_overflow _ Hint).
Qed.

(** The primary key of [students] makes the row the report is computed
    from the only one with its registration number. *)
Lemma student_row_unique (d : db) (s1 s2 : student_row) :
  wf_db d -> In s1 (students d) -> In s2 (students d) ->
  reg_no s1 = reg_no s2 -> s1 = s2.
Proof.
  intros W. pose proof (wf_student_key d W) as N. clear W.
  induction (students d) as [|s l IH]; cbn in *; [intros []|].
  inversion N as [|? ? Hnot Hrest]; subst.
  intros [->|H1] [->|H2] E; auto.
  - exfalso. apply Hnot. rewrite E. now apply in_map.
  - exfalso. apply Hnot. rewrite <- E. now apply in_map.
Qed.

(** ** Further properties of the handlers *)

(** X1. [add_student] with a registration number already in [students]
    answers 400 "Student registration number already exists" and leaves the
    store as it was. *)
Theorem add_student_duplicate_rejected
    (d : db) (data : student_json) (r name : string) (cid : Z) :
  j_reg_no data = Some r ->
  j_student_name data = Some name ->
  j_s_class_id data = Some cid ->
  sqlite_int cid = true ->
  In r (map reg_no (students d)) ->
  add_student data d =
    (Error 400 "Student registration number already exists", d).
Proof.
  intros Hr Hn Hc Hint Hin. unfold add_student. rewrite Hr, Hn, Hc.
  cbn [getitem bind]. unfold insert_student.
  rewrite (bind_int_ok _ Hint). cbn [bind].
  apply has_student_true in Hin. now rewrite Hin.
Qed.

(** X2. [get_overall_attendance] for a registration number that no student
    row carries answers 404 "Student not found", whatever marks the store
    holds for it, and leaves the store as it was. *)
Theorem get_overall_attendance_unknown (r : string) (d : db) :
  ~ In r (map reg_no (students d)) ->
  get_overall_attendance r d = (Error 404 "Student not found", d).
Proof.
  intros Hnot. unfold get_overall_attendance, attendance_query.
  destruct (find (fun s => String.eqb (reg_no s) r) (students d)) as [s|] eqn:F;
    [|reflexivity].
  exfalso. apply Hnot. apply find_some in F as [Hin Heq].
  apply String.eqb_eq in Heq. rewrite <- Heq. now apply in_map.
Qed.

(** X3. A request that is answered with a failure (an error reply or an
    exception) leaves the store exactly as it was, for every handler. *)
Theorem failed_request_changes_nothing (q : request) (d : db) :
  is_failure (fst (handle q d)) = true -> snd (handle q d) = d.
Proof.
  destruct q; cbn [handle].
  - unfold add_class.
    destruct (_ <- getitem "class_id" (j_class_id data) ;; _) as [d'|e];
      [discriminate | now destruct e].
  - reflexivity.
  - unfold add_student.
    destruct (_ <- getitem "reg_no" (j_reg_no data) ;; _) as [d'|e];
      [discriminate | now destruct e].
  - unfold get_students. destruct class_id_arg as [param|];
      [destruct (String.eqb param "")|]; reflexivity.
  - destruct (bulk_add_students_cases file d)
      as [(a & -> & _) | (added & skipped & w & -> & _)];
      [reflexivity | discriminate].
  - destruct (create_period_cases data d)
      as [[e ->] | (pid & d' & -> & _)]; [reflexivity | discriminate].
  - unfold mark_attendance.
    destruct (_ <- getitem "period_id" (j_period_id data) ;; _) as [w|e];
      [discriminate | reflexivity].
  - unfold get_overall_attendance.
    destruct (attendance_query r d) as [[[[r0 r1] r2] r3]|]; reflexivity.
Qed.

(** X4. Serving any requests from a state that satisfies the schema
    (unique class_id, reg_no, period_id and (period_id, reg_no); class ids
    that are SQLite integers; period ids between 1 and the sequence) ends in
    a state that satisfies it. *)
Theorem served_state_keeps_schema (qs : list request) (d : db) :
  wf_db d -> wf_db (snd (serve qs d)).
Proof.
  revert d. induction qs as [|q rest IH]; intros d W; [exact W|].
  rewrite serve_cons. cbn [snd]. apply IH, handle_wf, W.
Qed.

(** ** Nothing is deleted *)

Lemma extends_refl (d : db) : extends d d.
Proof.
  repeat split; try (exists []; now rewrite app_nil_r); try lia.
  intros a Ha. now exists a.
Qed.

Lemma extends_trans (d1 d2 d3 : db) :
  extends d1 d2 -> extends d2 d3 -> extends d1 d3.
Proof.
  intros ((c1 & C1) & (s1 & S1) & (p1 & P1) & Q1 & A1)
         ((c2 & C2) & (s2 & S2) & (p2 & P2) & Q2 & A2).
  repeat split.
  - exists (c1 ++ c2). now rewrite C2, C1, app_assoc.
  - exists (s1 ++ s2). now rewrite S2, S1, app_assoc.
  - exists (p1 ++ p2). now rewrite P2, P1, app_assoc.
  - lia.
  - intros a Ha. destruct (A1 a Ha) as (a1 & H1 & K1).
    destruct (A2 a1 H1) as (a2 & H2 & K2). exists a2. split; congruence.
Qed.

Lemma students_grow_extends (d d' : db) : students_grow d d' -> extends d d'.
Proof.
  intros (H1 & H2 & H3 & H4 & more & H5). repeat split.
  - exists []. now rewrite app_nil_r.
  - now exists more.
  - exists []. now rewrite app_nil_r.
  - lia.
  - intros a Ha. exists a. now rewrite H4.
Qed.

Lemma mark_one_extends (pid : option Z) (record : mark_json) (w w' : db) :
  mark_one pid record w = Ok w' -> extends w w'.
Proof.
  intros H. apply mark_one_inv in H as (r & v & _ & _ & _ & _ & ->).
  repeat split; cbn; try (exists []; now rewrite app_nil_r); try lia.
  intros a Ha. destruct (conflicts pid r a) eqn:E.
  - destruct pid as [p|]; [|discriminate]. cbn [conflicts] in E.
    apply same_mark_inv in E as [E1 E2].
    exists (mkAttendance (Some p) r v). split.
    + apply in_or_app. right. now left.
    + unfold mark_key. cbn. congruence.
  - exists a. split; [|reflexivity]. apply in_or_app. left.
    apply filter_In. split; [exact Ha | now rewrite E].
Qed.

Lemma mark_loop_extends (pid : option Z) (records : list mark_json) :
  forall w w', mark_loop pid records w = Ok w' -> extends w w'.
Proof.
  induction records as [|record rest IH]; intros w w' H.
  - injection H as <-. apply extends_refl.
  - cbn [mark_loop] in H.
    destruct (mark_one pid record w) as [w1|e] eqn:E; [|discriminate].
    cbn [bind] in H. eapply extends_trans;
      [eapply mark_one_extends, E | apply IH, H].
Qed.

Lemma handle_extends (q : request) (d : db) : extends d (snd (handle q d)).
Proof.
  destruct q; cbn [handle].
  - unfold add_class.
    destruct (_ <- getitem "class_id" (j_class_id data) ;; _) as [d'|e] eqn:E.
    + unfold getitem, bind in E.
      destruct (j_class_id data); [|discriminate].
      destruct (j_class_name data); [|discriminate].
      apply insert_class_inv in E as (_ & _ & ->).
      repeat split; cbn; eauto; try (exists []; now rewrite app_nil_r); lia.
    + destruct e; apply extends_refl.
  - apply extends_refl.
  - unfold add_student.
    destruct (_ <- getitem "reg_no" (j_reg_no data) ;; _) as [d'|e] eqn:E.
    + unfold getitem, bind in E.
      destruct (j_reg_no data); [|discriminate].
      destruct (j_student_name data); [|discriminate].
      destruct (j_s_class_id data); [|discriminate].
      apply insert_student_inv in E as (_ & _ & ->).
      repeat split; cbn; eauto; try (exists []; now rewrite app_nil_r); lia.
    + destruct e; apply extends_refl.
  - unfold get_students. destruct class_id_arg as [param|];
      [destruct (String.eqb param "")|]; apply extends_refl.
  - destruct (bulk_add_students_cases file d)
      as [(a & -> & _) | (added & skipped & w & -> & G)]; cbn [snd];
      [apply extends_refl | now apply students_grow_extends].
  - unfold create_period.
    destruct (_ <- getitem "class_id" (j_p_class_id data) ;; _)
      as [[d' pid]|e] eqn:E; [|apply extends_refl].
    unfold getitem, bind in E.
    destruct (j_p_class_id data); [|discriminate].
    destruct (j_subject_name data); [|discriminate].
    destruct (j_period_date data); [|discriminate].
    destruct (j_period_number data); [|discriminate].
    apply insert_period_inv in E as (Hpid & _ & ->).
    repeat split; cbn; eauto; try (exists []; now rewrite app_nil_r).
    unfold high_water in Hpid. lia.
  - unfold mark_attendance.
    destruct (_ <- getitem "period_id" (j_period_id data) ;; _) as [w|e] eqn:E;
      [|apply extends_refl].
    unfold getitem, bind in E.
    destruct (j_period_id data) as [pid|]; [|discriminate].
    destruct (j_attendance data) as [l|]; [|discriminate].
    cbn [snd]. eapply mark_loop_extends, E.
  - unfold get_overall_attendance.
    destruct (attendance_query r d) as [[[[r0 r1] r2] r3]|]; apply extends_refl.
Qed.

(** X5. No request deletes or alters a class, student or period row, lowers
    the period sequence, or unmarks a (period_id, reg_no) pair: whatever is
    served, the final state extends the initial one. *)
Theorem nothing_is_deleted (qs : list request) (d : db) :
  extends d (snd (serve qs d)).
Proof.
  revert d. induction qs as [|q rest IH]; intros d; [apply extends_refl|].
  rewrite serve_cons. cbn [snd].
  eapply extends_trans; [apply handle_extends | apply IH].
Qed.

(** ** The counts of the bulk import *)

Lemma rows_yielded_nonneg (rows : csv_rows) : 0 <= rows_yielded rows.
Proof. induction rows; cbn [rows_yielded]; lia. Qed.

Lemma bulk_row_counts (row : list string) (w w' : db) (a s a' s' : Z) :
  bulk_row row (w, a, s) = Ok (w', a', s') ->
  exists more,
    students w' = students w ++ more /\
    a' = a + Z.of_nat (List.length more) /\
    s <= s' /\ (a' - a) + (s' - s) <= 1.
Proof.
  assert (Same : exists more : list student_row,
            students w = students w ++ more /\
            a = a + Z.of_nat (List.length more) /\ s <= s /\ a - a + (s - s) <= 1).
  { exists []. rewrite app_nil_r. cbn. repeat split; lia. }
  assert (Skip : exists more : list student_row,
            students w = students w ++ more /\
            a = a + Z.of_nat (List.length more) /\
            s <= s + 1 /\ a - a + (s + 1 - s) <= 1).
  { exists []. rewrite app_nil_r. cbn. repeat split; lia. }
  unfold bulk_row.
  destruct row as [|f0 [|f1 [|f2 row]]];
    try (intros H; injection H as <- <- <-; exact Same).
  destruct (int_of_str (strip f2)) as [cid|];
    [|intros H; injection H as <- <- <-; exact Skip].
  destruct (insert_student (strip f0) (strip f1) cid w) as [w1|e] eqn:E.
  - intros H. injection H as <- <- <-.
    apply insert_student_inv in E as (_ & _ & ->). cbn [students].
    eexists. split; [reflexivity|]. cbn. repeat split; lia.
  - destruct e; try discriminate;
      intros H; injection H as <- <- <-; exact Skip.
Qed.

Lemma bulk_loop_counts (rows : csv_rows) :
  forall w a s w' a' s',
  bulk_loop rows (w, a, s) = Ok (w', a', s') ->
  exists more,
    students w' = students w ++ more /\
    a' = a + Z.of_nat (List.length more) /\
    s <= s' /\ (a' - a) + (s' - s) <= rows_yielded rows.
Proof.
  induction rows as [| |row rest IH]; intros w a s w' a' s' H.
  - injection H as <- <- <-. exists []. rewrite app_nil_r. cbn.
    repeat split; lia.
  - discriminate.
  - cbn [bulk_loop] in H.
    destruct (bulk_row row (w, a, s)) as [[[w1 a1] s1]|e] eqn:E; [|discriminate].
    cbn [bind] in H.
    apply bulk_row_counts in E as (m1 & S1 & A1 & L1 & B1).
    apply IH in H as (m2 & S2 & A2 & L2 & B2).
    exists (m1 ++ m2). rewrite S2, S1, app_assoc, length_app.
    cbn [rows_yielded]. repeat split; lia.
Qed.

(** X6. When the bulk import reports counts, [added] is exactly the number
    of student rows it appended, both counts are non-negative, together they
    do not exceed the number of rows after the header, and no other table is
    touched. *)
Theorem bulk_counts_are_exact
    (f : upload) (text : string) (d w : db) (added skipped : Z) :
  decode_utf8 (content f) = Some text ->
  bulk_add_students (Some f) d = (BulkSummary added skipped, w) ->
  0 <= added /\ 0 <= skipped /\
  added + skipped <= Z.max 0 (rows_yielded (csv_reader text) - 1) /\
  (exists more, students w = students d ++ more /\
                Z.of_nat (List.length more) = added) /\
  classes w = classes d /\ periods w = periods d /\
  attendance w = attendance d.
Proof.
  intros Hdec H. unfold bulk_add_students in H.
  destruct (String.eqb (filename f) ""); [discriminate|].
  rewrite Hdec in H.
  destruct (skip_header (csv_reader text)) as [rows|e] eqn:Hh;
    cbn [bind] in H; [|discriminate].
  destruct (bulk_loop rows (d, 0, 0)) as [[[w1 a1] s1]|e] eqn:E; [|discriminate].
  injection H as -> -> ->.
  pose proof (bulk_loop_grow _ _ _ _ _ _ _ E) as (G1 & G2 & _ & G4 & _).
  apply bulk_loop_counts in E as (more & S & A & L & B).
  assert (Hrows : rows_yielded rows <= Z.max 0 (rows_yielded (csv_reader text) - 1)).
  { pose proof (rows_yielded_nonneg rows).
    destruct (csv_reader text) as [| |h rest]; cbn in Hh;
      try discriminate; injection Hh as Hh; subst rows;
      cbn [rows_yielded] in *; lia. }
  repeat split; auto; try lia.
  exists more. split; [exact S | lia].
Qed.

(** ** More on marking attendance *)

Lemma mark_one_ok (pid : Z) (r : string) (v : Z) (record : mark_json) (w : db) :
  sqlite_int pid = true ->
  j_m_reg_no record = Some r -> j_is_present record = Some v ->
  sqlite_int v = true ->
  mark_one (Some pid) record w =
  Ok (mkDb (classes w) (students w) (periods w) (period_seq w)
           (filter (fun a => negb (same_mark pid r a)) (attendance w)
              ++ [mkAttendance (Some pid) r v])).
Proof.
  intros Hp Hr Hv Hi. unfold mark_one, replace_attendance, bind_nullable_int.
  rewrite Hr, Hv. cbn [getitem bind].
  now rewrite (bind_int_ok _ Hp), (bind_int_ok _ Hi).
Qed.

Lemma mark_loop_total (pid : Z) (records : list mark_json) :
  sqlite_int pid = true ->
  forallb well_formed_mark records = true ->
  forall w, exists w', mark_loop (Some pid) records w = Ok w'.
Proof.
  intros Hp. induction records as [|record rest IH]; intros Hall w.
  - now exists w.
  - cbn [forallb] in Hall. apply andb_true_iff in Hall as [Hrec Hrest].
    unfold well_formed_mark in Hrec.
    destruct (j_m_reg_no record) as [r|] eqn:Hr; [|discriminate].
    destruct (j_is_present record) as [v|] eqn:Hv; [|discriminate].
    cbn [mark_loop]. rewrite (mark_one_ok pid r v record w Hp Hr Hv Hrec).
    cbn [bind]. apply IH, Hrest.
Qed.

(** X7. [mark_attendance] checks neither that the period nor that the
    student exists: for a period_id that is an SQLite integer and a batch of
    well-formed records it answers 200 "Attendance saved" on any store, and
    each registration number of the batch then has exactly one row for the
    period, with the flag the batch gave it last. *)
Theorem mark_attendance_accepts_any_pair
    (d : db) (pid : Z) (records : list mark_json) :
  sqlite_int pid = true ->
  forallb well_formed_mark records = true ->
  exists d',
    mark_attendance (mkAttendanceJson (Some (Some pid)) (Some records)) d
      = (Message 200 "Attendance saved", d') /\
    forall r v, last_mark r records = Some v ->
                filter (same_mark pid r) (attendance d')
                = [mkAttendance (Some pid) r v].
Proof.
  intros Hp Hall. destruct (mark_loop_total pid records Hp Hall d) as [d' E].
  exists d'. split.
  - unfold mark_attendance. cbn [j_period_id j_attendance getitem bind].
    now rewrite E.
  - intros r v Hl. rewrite (mark_loop_rows pid records r _ _ E). now rewrite Hl.
Qed.




(** ** Marks and the report *)

Lemma same_mark_reg_no (pid : Z) (r : string) (a : attendance_row) :
  same_mark pid r a = true -> String.eqb r (a_reg_no a) = true.
Proof.
  intros H. apply same_mark_inv in H as [_ H]. apply String.eqb_eq.
  now symmetry.
Qed.

Lemma same_mark_has_period (pid : Z) (r : string) (a : attendance_row) :
  same_mark pid r a = true -> has_period a = true.
Proof.
  intros H. apply same_mark_inv in H as [H _]. unfold has_period.
  now rewrite H.
Qed.

(** Counting the marks of [r], all or those that satisfy [keep], before and
    after the rows of the pair [(pid, r)] are deleted. *)
Lemma count_without_pair (pid : Z) (r : string)
    (keep : attendance_row -> bool) (marks : list attendance_row) :
  let mine := fun a => String.eqb r (a_reg_no a) in
  List.length (filter keep (filter mine marks)) =
  (List.length
     (filter keep
        (filter mine (filter (fun a => negb (same_mark pid r a)) marks)))
   + List.length (filter keep (filter (same_mark pid r) marks)))%nat.
Proof.
  cbv zeta. induction marks as [|a l IH]; [reflexivity|].
  cbn [filter]. destruct (same_mark pid r a) eqn:E; cbn [negb].
  - rewrite (same_mark_reg_no pid r a E). cbn [filter].
    destruct (keep a); cbn [List.length]; lia.
  - cbn [filter]. destruct (String.eqb r (a_reg_no a)); cbn [filter];
      [destruct (keep a); cbn [List.length]|]; lia.
Qed.

Lemma pair_rows_have_period (pid : Z) (r : string)
    (marks : list attendance_row) :
  filter has_period (filter (same_mark pid r) marks)
  = filter (same_mark pid r) marks.
Proof.
  apply filter_all_true. apply forallb_forall. intros a Ha.
  apply filter_In in Ha as [_ Ha]. now apply (same_mark_has_period pid r).
Qed.

(** X9. Marking a registered student for one period changes the report by
    that one pair: total_classes loses the rows the pair had and gains one,
    attended_classes loses those of them with is_present = 1 and gains one
    when the new flag is 1.  So a first mark adds one class, and marking the
    same period again leaves total_classes as it was. *)
Theorem mark_then_report (d : db) (pid : Z) (r : string) (v : Z) :
  In r (map reg_no (students d)) ->
  sqlite_int pid = true ->
  sqlite_int v = true ->
  let d' := snd (mark_attendance (marks_for pid [mark r v]) d) in
  let old := filter (same_mark pid r) (attendance d) in
  exists rep rep',
    get_overall_attendance r d = (AttendanceReport rep, d) /\
    get_overall_attendance r d' = (AttendanceReport rep', d') /\
    total_classes rep' = total_classes rep - Z.of_nat (List.length old) + 1 /\
    attended_classes rep' =
      attended_classes rep
      - Z.of_nat (List.length (filter (fun a => is_present a =? 1) old))
      + present_flag v.
Proof.
  intros Hin Hp Hv d' old.
  assert (E : d' = mkDb (classes d) (students d) (periods d) (period_seq d)
                (filter (fun a => negb (same_mark pid r a)) (attendance d)
                   ++ [mkAttendance (Some pid) r v])).
  { unfold d', mark_attendance, marks_for, mark.
    cbn [j_period_id j_attendance getitem bind mark_loop].
    now rewrite (mark_one_ok pid r v (mkMarkJson (Some r) (Some v)) d
                   Hp eq_refl eq_refl Hv). }
  assert (Hin' : In r (map reg_no (students d'))) by now rewrite E.
  destruct (get_overall_attendance_found r d Hin) as [name F].
  destruct (get_overall_attendance_found r d' Hin') as [name' F'].
  cbv zeta in F, F'. eexists. eexists.
  split; [exact F|]. split; [exact F'|].
  cbn [total_classes attended_classes].
  assert (M : marks_of r d' =
              filter (fun a => String.eqb r (a_reg_no a))
                     (filter (fun a => negb (same_mark pid r a)) (attendance d))
              ++ [mkAttendance (Some pid) r v]).
  { rewrite E. unfold marks_of. cbn [attendance]. rewrite filter_app.
    cbn [filter a_reg_no]. now rewrite String.eqb_refl. }
  pose proof (count_without_pair pid r has_period (attendance d)) as T.
  pose proof (count_without_pair pid r (fun a => is_present a =? 1)
                (attendance d)) as P.
  cbv zeta in T, P. rewrite pair_rows_have_period in T.
  unfold counted_marks_of, present_marks_of. rewrite M. fold old in T, P.
  unfold marks_of. rewrite !filter_app, !length_app.
  cbn [filter is_present has_period a_period_id]. unfold present_flag.
  split; [cbn [List.length]; lia|].
  destruct (v =? 1); cbn [List.length]; lia.
Qed.

(** X10. A student present at every marked period has 100.00 percent and a
    student present at none has 0.00: the rounding never moves these two
    values. *)
Theorem full_and_zero_attendance (r : string) (d : db) :
  In r (map reg_no (students d)) ->
  exists rep,
    get_overall_attendance r d = (AttendanceReport rep, d) /\
    (0 < total_classes rep -> attended_classes rep = total_classes rep ->
     attendance_percentage rep = 10000) /\
    (attended_classes rep = 0 -> attendance_percentage rep = 0).
Proof.
  intros Hin. destruct (get_overall_attendance_found r d Hin) as [name E].
  cbv zeta in E. eexists. split; [exact E|].
  cbn [total_classes attended_classes attendance_percentage].
  set (t := Z.of_nat (List.length (counted_marks_of r d))) in *.
  set (a := Z.of_nat (List.length (present_marks_of r d))) in *.
  split.
  - intros Ht Ha. destruct (Z.ltb_spec 0 t); [|lia].
    rewrite Ha. now apply round_percentage_full.
  - intros Ha. destruct (Z.ltb_spec 0 t) as [Ht|]; [|reflexivity].
    rewrite Ha. apply round_percentage_zero.
Qed.

(** ** What does not change a report *)

Lemma find_app_found {A : Type} (f : A -> bool) (l more : list A) (x : A) :
  find f l = Some x -> find f (l ++ more) = Some x.
Proof.
  induction l as [|a l IH]; cbn; [discriminate|].
  destruct (f a); [auto | exact IH].
Qed.

Lemma handle_keeps_marks (q : request) (d : db) :
  is_mark q = false ->
  attendance (snd (handle q d)) = attendance d /\
  exists more, students (snd (handle q d)) = students d ++ more.
Proof.
  assert (Same : attendance d = attendance d /\
                 exists more, students d = students d ++ more).
  { split; [reflexivity|]. exists []. now rewrite app_nil_r. }
  intros Hq. destruct q; try discriminate Hq; cbn [handle].
  - unfold add_class.
    destruct (_ <- getitem "class_id" (j_class_id data) ;; _) as [d'|e] eqn:E.
    + unfold getitem, bind in E.
      destruct (j_class_id data); [|discriminate].
      destruct (j_class_name data); [|discriminate].
      apply insert_class_inv in E as (_ & _ & ->). exact Same.
    + destruct e; exact Same.
  - exact Same.
  - unfold add_student.
    destruct (_ <- getitem "reg_no" (j_reg_no data) ;; _) as [d'|e] eqn:E.
    + unfold getitem, bind in E.
      destruct (j_reg_no data); [|discriminate].
      destruct (j_student_name data); [|discriminate].
      destruct (j_s_class_id data); [|discriminate].
      apply insert_student_inv in E as (_ & _ & ->). cbn. eauto.
    + destruct e; exact Same.
  - unfold get_students. destruct class_id_arg as [param|];
      [destruct (String.eqb param "")|]; exact Same.
  - destruct (bulk_add_students_cases file d)
      as [(a & -> & _) | (added & skipped & w & -> & G)]; cbn [snd];
      [exact Same|].
    destruct G as (_ & _ & _ & G4 & G5). auto.
  - destruct (create_period_cases data d)
      as [[e ->] | (pid & d' & E & _)]; [exact Same|].
    unfold create_period in *.
    destruct (_ <- getitem "class_id" (j_p_class_id data) ;; _)
      as [[d1 pid1]|e] eqn:E1; [|discriminate].
    unfold getitem, bind in E1.
    destruct (j_p_class_id data); [|discriminate].
    destruct (j_subject_name data); [|discriminate].
    destruct (j_period_date data); [|discriminate].
    destruct (j_period_number data); [|discriminate].
    apply insert_period_inv in E1 as (_ & _ & ->). exact Same.
  - unfold get_overall_attendance.
    destruct (attendance_query r d) as [[[[r0 r1] r2] r3]|]; exact Same.
Qed.

Lemma serve_keeps_marks (qs : list request) :
  forall d,
  forallb (fun q => negb (is_mark q)) qs = true ->
  attendance (snd (serve qs d)) = attendance d /\
  exists more, students (snd (serve qs d)) = students d ++ more.
Proof.
  induction qs as [|q rest IH]; intros d Hall.
  - split; [reflexivity|]. exists []. now rewrite app_nil_r.
  - cbn [forallb] in Hall. apply andb_true_iff in Hall as [Hq Hrest].
    apply negb_true_iff in Hq. rewrite serve_cons. cbn [snd].
    destruct (handle_keeps_marks q d Hq) as [A1 [m1 S1]].
    destruct (IH (snd (handle q d)) Hrest) as [A2 [m2 S2]].
    split; [congruence|]. exists (m1 ++ m2). now rewrite S2, S1, app_assoc.
Qed.

(** X11. Only [mark_attendance] changes a report: after any requests of the
    other kinds (classes and students added, files imported, periods
    created, lists and reports read), a student registered before them gets
    the same report as before. *)
Theorem report_changes_only_by_marking
    (qs : list request) (d : db) (r : string) :
  In r (map reg_no (students d)) ->
  forallb (fun q => negb (is_mark q)) qs = true ->
  fst (get_overall_attendance r (snd (serve qs d))) =
  fst (get_overall_attendance r d).
Proof.
  intros Hin Hall.
  destruct (serve_keeps_marks qs d Hall) as [HA [more HS]].
  destruct (find_student r d Hin) as [s [F _]].
  unfold get_overall_attendance, attendance_query.
  rewrite HS, (find_app_found _ _ more s F), F, HA.
  now destruct (sum_case_present (left_join s (attendance d))).
Qed.

(** X12. A class_id can be used once: after [add_class] answered 201, any
    further [add_class] carrying the same class_id and a class_name is
    answered 400 "Class ID already exists" and changes nothing. *)
Theorem add_class_twice_rejected
    (d d' : db) (data again : class_json) (name : string) :
  add_class data d = (Message 201 "Class added", d') ->
  j_class_id again = j_class_id data ->
  j_class_name again = Some name ->
  add_class again d' = (Error 400 "Class ID already exists", d').
Proof.
  intros H Hid Hname. unfold add_class in H.
  destruct (_ <- getitem "class_id" (j_class_id data) ;; _) as [d1|e] eqn:E;
    [|destruct e; discriminate].
  injection H as ->. unfold getitem, bind in E.
  destruct (j_class_id data) as [cid|] eqn:Hc; [|discriminate].
  destruct (j_class_name data) as [n|]; [|discriminate].
  apply insert_class_inv in E as (Hint & _ & ->).
  unfold add_class. rewrite Hid, Hname. cbn [getitem bind].
  unfold insert_class. rewrite (bind_int_ok _ Hint). cbn [bind].
  replace (has_class cid _) with true; [reflexivity|].
  symmetry. apply has_class_true. eexists. split;
    [cbn [classes]; apply in_or_app; right; left; reflexivity | reflexivity].
Qed.

(** X13. A student added by [add_student] is listed by [get_students]
    without a filter and under the filter of its own class_id, with the
    fields of the request. *)
Theorem added_student_is_listed
    (d d' : db) (data : student_json) (r name param : string) (cid : Z) :
  j_reg_no data = Some r ->
  j_student_name data = Some name ->
  j_s_class_id data = Some cid ->
  add_student data d = (Message 201 "Student added", d') ->
  param <> "" ->
  numeric_of_text param = Some cid ->
  exists all rows,
    get_students None d' = (StudentList all, d') /\
    get_students (Some param) d' = (StudentList rows, d') /\
    In (mkStudent r name cid) all /\ In (mkStudent r name cid) rows.
Proof.
  intros Hr Hn Hc H Hne Hnum. unfold add_student in H.
  rewrite Hr, Hn, Hc in H. cbn [getitem bind] in H.
  destruct (insert_student r name cid d) as [d1|e] eqn:E;
    [|destruct e; discriminate].
  injection H as ->. apply insert_student_inv in E as (_ & _ & ->).
  unfold get_students. apply String.eqb_neq in Hne. rewrite Hne.
  eexists. eexists. split; [reflexivity|]. split; [reflexivity|].
  cbn [students]. split.
  - apply in_or_app. right. now left.
  - apply filter_In. split; [apply in_or_app; right; now left|].
    unfold class_id_is. rewrite Hnum. cbn. apply Z.eqb_refl.
Qed.

(** ** Periods and classes *)

(** X14. With its four keys present, integers that SQLite can store and an
    identifier left to hand out, [create_period] answers 201 with one more
    than the largest identifier used so far and appends the period row with
    the fields of the request; it does not look the class_id up. *)
Theorem create_period_stores_row
    (d : db) (data : period_json) (cid number : Z) (subject date : string) :
  j_p_class_id data = Some cid ->
  j_subject_name data = Some subject ->
  j_period_date data = Some date ->
  j_period_number data = Some number ->
  sqlite_int cid = true ->
  sqlite_int number = true ->
  high_water d < INT64_MAX ->
  let pid := high_water d + 1 in
  create_period data d =
    (PeriodCreated pid,
     mkDb (classes d) (students d)
          (periods d ++ [mkPeriod pid cid subject date number])
          pid (attendance d)).
Proof.
  intros Hc Hs Hd Hn Hci Hni Hw pid. unfold create_period.
  rewrite Hc, Hs, Hd, Hn. cbn [getitem bind]. unfold insert_period.
  rewrite (bind_int_ok _ Hci), (bind_int_ok _ Hni). cbn [bind].
  fold (high_water d).
  destruct (Z.leb_spec INT64_MAX (high_water d)); [lia | reflexivity].
Qed.

(** X15. Nothing makes a period unique but its identifier: the request that
    created a period, sent again, creates a second period with the same
    class, subject, date and number and the next identifier. *)
Theorem create_period_twice
    (d d1 : db) (data : period_json) (pid : Z) :
  create_period data d = (PeriodCreated pid, d1) ->
  pid < INT64_MAX ->
  exists d2 row,
    create_period data d1 = (PeriodCreated (pid + 1), d2) /\
    periods d1 = periods d ++ [row] /\
    periods d2 = periods d ++ [row; mkPeriod (pid + 1) (p_class_id row)
                                      (subject_name row) (period_date row)
                                      (period_number row)].
Proof.
  intros H Hmax. unfold create_period in H.
  destruct (_ <- getitem "class_id" (j_p_class_id data) ;; _)
    as [[d' pid']|e] eqn:E; [|discriminate].
  injection H as -> ->. unfold getitem, bind in E.
  destruct (j_p_class_id data) as [cid|] eqn:Hc; [|discriminate].
  destruct (j_subject_name data) as [subject|] eqn:Hs; [|discriminate].
  destruct (j_period_date data) as [date|] eqn:Hd; [|discriminate].
  destruct (j_period_number data) as [number|] eqn:Hn; [|discriminate].
  pose proof E as E0. unfold insert_period, bind_int, bind in E0.
  destruct (sqlite_int cid) eqn:Hci; [|discriminate].
  destruct (sqlite_int number) eqn:Hni; [|discriminate]. clear E0.
  apply insert_period_inv in E as (Hpid & _ & ->).
  assert (Hw : high_water
                 (mkDb (classes d) (students d)
                    (periods d ++ [mkPeriod pid cid subject date number])
                    pid (attendance d)) = pid).
  { unfold high_water in *. cbn [period_seq periods].
    rewrite max_period_id_app. cbn [period_id].
    pose proof (max_period_id_nonneg (periods d)). lia. }
  eexists. exists (mkPeriod pid cid subject date number).
  split; [|split; [reflexivity|]].
  - unfold create_period. rewrite Hc, Hs, Hd, Hn. cbn [getitem bind].
    unfold insert_period. rewrite (bind_int_ok _ Hci), (bind_int_ok _ Hni).
    cbn [bind]. fold (high_water
                 (mkDb (classes d) (students d)
                    (periods d ++ [mkPeriod pid cid subject date number])
                    pid (attendance d))).
    rewrite Hw. destruct (Z.leb_spec INT64_MAX pid); [lia | reflexivity].
  - cbn [periods p_class_id subject_name period_date period_number].
    now rewrite <- app_assoc.
Qed.

Lemma insert_by_class_id_perm (c : class_row) (rows : list class_row) :
  Permutation (insert_by_class_id c rows) (c :: rows).
Proof.
  induction rows as [|x rest IH]; cbn [insert_by_class_id]; [reflexivity|].
  destruct (class_id c <=? class_id x); [reflexivity|].
  rewrite IH. apply perm_swap.
Qed.

Lemma by_class_id_perm (rows : list class_row) :
  Permutation (by_class_id rows) rows.
Proof.
  induction rows as [|c rest IH]; [reflexivity|].
  unfold by_class_id in *. cbn [fold_right].
  rewrite insert_by_class_id_perm. now constructor.
Qed.

Lemma insert_by_class_id_sorted (c : class_row) (rows : list class_row) :
  StronglySorted class_id_le rows ->
  StronglySorted class_id_le (insert_by_class_id c rows).
Proof.
  induction 1 as [|x rest Hs IH Hall]; cbn [insert_by_class_id].
  - repeat constructor.
  - destruct (Z.leb_spec (class_id c) (class_id x)) as [Hle|Hgt].
    + constructor; [now constructor|]. constructor; [exact Hle|].
      eapply Forall_impl; [|exact Hall]. unfold class_id_le. intros y Hy. lia.
    + constructor; [exact IH|].
      apply (Permutation_Forall (Permutation_sym
               (insert_by_class_id_perm c rest))).
      constructor; [unfold class_id_le; lia | exact Hall].
Qed.

Lemma by_class_id_sorted (rows : list class_row) :
  StronglySorted class_id_le (by_class_id rows).
Proof.
  induction rows as [|c rest IH]; [constructor|].
  unfold by_class_id in *. cbn [fold_right].
  now apply insert_by_class_id_sorted.
Qed.

(** X16. A class added by [add_class] is in the list [get_classes] then
    returns, with the empty string as department when the request carries
    none; that list holds the stored classes, each once, by increasing
    class_id. *)
Theorem added_class_is_listed
    (d : db) (data : class_json) (cid : Z) (name : string) :
  j_class_id data = Some cid ->
  j_class_name data = Some name ->
  sqlite_int cid = true ->
  has_class cid d = false ->
  exists d' listing,
    add_class data d = (Message 201 "Class added", d') /\
    get_classes d' = (ClassList listing, d') /\
    In (mkClass cid name
          (match j_department data with Some dep => dep | None => "" end))
       listing /\
    Permutation listing (classes d') /\
    StronglySorted class_id_le listing.
Proof.
  intros Hc Hn Hint Hnew. eexists. eexists. split; [|split; [reflexivity|]].
  - unfold add_class. rewrite Hc, Hn. cbn [getitem bind].
    unfold insert_class. rewrite (bind_int_ok _ Hint). cbn [bind].
    rewrite Hnew. reflexivity.
  - cbn [classes]. split; [|split].
    + apply (Permutation_in _ (Permutation_sym (by_class_id_perm _))).
      apply in_or_app. right. now left.
    + apply by_class_id_perm.
    + apply by_class_id_sorted.
Qed.

(** X17. Marks recorded for a registration number before any student
    carries it are counted once the student is added: the report after
    [add_student] has as total_classes the number of marks with a period_id
    the store already held for that registration number, and as
    attended_classes the number of its marks with is_present = 1. *)
Theorem earlier_marks_are_counted
    (d d' : db) (data : student_json) (r : string) :
  j_reg_no data = Some r ->
  add_student data d = (Message 201 "Student added", d') ->
  exists rep,
    get_overall_attendance r d' = (AttendanceReport rep, d') /\
    total_classes rep = Z.of_nat (List.length (counted_marks_of r d)) /\
    attended_classes rep = Z.of_nat (List.length (present_marks_of r d)).
Proof.
  intros Hr H. unfold add_student in H. rewrite Hr in H.
  cbn [getitem bind] in H.
  destruct (j_student_name data) as [name|]; [|discriminate].
  destruct (j_s_class_id data) as [cid|]; [|discriminate].
  cbn [getitem bind] in H.
  destruct (insert_student r name cid d) as [d1|e] eqn:E;
    [|destruct e; discriminate].
  injection H as ->. apply insert_student_inv in E as (_ & _ & ->).
  set (d' := mkDb (classes d) (students d ++ [mkStudent r name cid])
                  (periods d) (period_seq d) (attendance d)).
  assert (Hin : In r (map reg_no (students d'))).
  { cbn [d' students]. rewrite map_app. apply in_or_app. right. now left. }
  destruct (get_overall_attendance_found r d' Hin) as [name' F].
  cbv zeta in F. eexists. split; [exact F|]. split; reflexivity.
Qed.

End Properties.

(** ** The service on the sample inputs *)

#[local] Existing Instance AsciiRuntime.runtime.

Example sample_db_content :
  sample_db =
  mkDb [mkClass 1 "CSE-A" ""]
       [mkStudent "S1" "Asha" 1; mkStudent "S2" "Bala" 1]
       [mkPeriod 1 1 "Maths" "2025-12-15" 1;
        mkPeriod 2 1 "Maths" "2025-12-15" 2;
        mkPeriod 3 1 "Maths" "2025-12-15" 3]
       3
       [mkAttendance (Some 1) "S1" 1; mkAttendance (Some 2) "S1" 0; mkAttendance (Some 3) "S1" 1].
Proof. reflexivity. Qed.

Example sample_db_periods :
  created_periods (fst (serve sample_requests init_db)) = [1; 2; 3].
Proof. reflexivity. Qed.

Example sample_report :
  fst (get_overall_attendance "S1" sample_db) =
  AttendanceReport (mkReport "S1" "Asha" 3 2 6667).
Proof. reflexivity. Qed.

Example unmarked_report :
  fst (get_overall_attendance "S2" sample_db) =
  AttendanceReport (mkReport "S2" "Bala" 0 0 0).
Proof. reflexivity. Qed.

Example unknown_report :
  get_overall_attendance "S9" sample_db =
  (Error 404 "Student not found", sample_db).
Proof. reflexivity. Qed.

Example sample_csv_counts :
  fst (bulk_add_students (upload_of sample_csv) init_db) = BulkSummary 5 1 /\
  map reg_no (students (snd (bulk_add_students (upload_of sample_csv) init_db)))
    = ["S1"; "S2"; "S3"; "S5"; "S6"].
Proof. split; reflexivity. Qed.

(** C8. A data row whose class_id parses as an integer beyond the 64-bit
    range is neither counted as skipped nor inserted: it ends the import with
    an error, and the well-formed row before it is not kept either. *)
Theorem bulk_oversized_class_id_aborts :
  bulk_add_students (upload_of oversized_csv) init_db =
  (BulkFailure OverflowError, init_db).
Proof. reflexivity. Qed.

(** C4 as stated fails: the first record of [broken_batch] is upserted on
    the connection, the second raises, and the store holds no row for the
    first pair afterwards. *)
Lemma mark_attendance_partial_batch_discarded :
  mark_one (Some 1) (mark "S1" 1) init_db
    = Ok (mkDb [] [] [] 0 [mkAttendance (Some 1) "S1" 1]) /\
  mark_attendance broken_batch init_db
    = (Unhandled (KeyError "is_present"), init_db) /\
  ~ In (mkAttendance (Some 1) "S1" 1)
       (attendance (snd (mark_attendance broken_batch init_db))).
Proof. repeat split. intros []. Qed.

(** ** Instances of the theorems on the sample inputs *)



Lemma mark_attendance_upsert_witness :
  let first := marks_for 1 [mark "S1" 1] in
  let second := marks_for 1 [mark "S1" 0] in
  let d1 := snd (mark_attendance first init_db) in
  let d2 := snd (mark_attendance second d1) in
  filter (same_mark 1 "S1") (attendance d1) = [mkAttendance (Some 1) "S1" 1] /\
  filter (same_mark 1 "S1") (attendance d2) = [mkAttendance (Some 1) "S1" 0].
Proof.
  intros first second d1 d2.
  apply (mark_attendance_upsert init_db d1 d2 first second 1
           [mark "S1" 1] [mark "S1" 0] "S1" 1 0); reflexivity.
Defined.

Lemma add_class_duplicate_rejected_witness :
  let data := mkClassJson (Some 1) (Some "CSE-B") None in
  wf_db sample_db /\
  add_class data sample_db = (Error 400 "Class ID already exists", sample_db) /\
  In (mkClass 1 "CSE-A" "") (classes (snd (add_class data sample_db))).
Proof.
  intros data.
  assert (W : wf_db sample_db).
  { apply reachable_wf. exists sample_requests. reflexivity. }
  split; [exact W|].
  apply (add_class_duplicate_rejected sample_db data 1 "CSE-B"
           (mkClass 1 "CSE-A" "") W); try reflexivity.
  vm_compute. left. reflexivity.
Defined.

Lemma mark_attendance_all_or_nothing_witness :
  well_formed_mark (mkMarkJson (Some "S2") None) = false /\
  exists e, mark_attendance broken_batch sample_db = (Unhandled e, sample_db).
Proof.
  split; [reflexivity|].
  apply (mark_attendance_all_or_nothing sample_db broken_batch (Some 1)
           [mark "S1" 1] [mark "S3" 1] (mkMarkJson (Some "S2") None));
    reflexivity.
Defined.

Lemma add_student_orphan_accepted_witness :
  let data := mkStudentJson (Some "S7") (Some "Gita") (Some 42) in
  has_class 42 sample_db = false /\
  fst (add_student data sample_db) = Message 201 "Student added" /\
  In (mkStudent "S7" "Gita" 42) (students (snd (add_student data sample_db))).
Proof.
  intros data. split; [reflexivity|].
  destruct (add_student_orphan_accepted sample_db data "S7" "Gita" 42)
    as [E Hin]; try reflexivity.
  - vm_compute. intros [H|[H|[]]]; discriminate H.
  - split; [now rewrite E | exact Hin].
Defined.

Lemma get_students_exact_witness :
  (exists rows,
      get_students (Some "1") sample_db = (StudentList rows, sample_db) /\
      forall s, In s rows <->
                In s (students sample_db) /\
                numeric_of_text "1" = Some (s_class_id s))
  /\ get_students None sample_db = (StudentList (students sample_db), sample_db)
  /\ get_students (Some "") sample_db
     = (StudentList (students sample_db), sample_db).
Proof.
  apply (get_students_exact sample_db "1"). intros H. discriminate H.
Defined.

Lemma bulk_undecodable_rejected_witness :
  let f := mkUpload "students.csv" [Byte.xff] in
  decode_utf8 (content f) = None /\
  bulk_add_students (Some f) sample_db = (BulkFailure UnicodeDecodeError, sample_db).
Proof.
  intros f. split; [reflexivity|].
  apply (bulk_undecodable_rejected sample_db f);
    [intros H; discriminate H | reflexivity].
Defined.

(** C10 as stated fails: in [null_period_db] the student S2 has one mark
    with a period_id and one without, both present, and the report has
    total_classes 1, attended_classes 2 and 200.00 percent. *)
Lemma report_bounds_fail_with_null_period :
  exists rep,
    get_overall_attendance "S2" null_period_db
      = (AttendanceReport rep, null_period_db) /\
    rep = mkReport "S2" "Bala" 1 2 20000 /\
    ~ (attended_classes rep <= total_classes rep) /\
    ~ (attendance_percentage rep <= 10000).
Proof.
  exists (mkReport "S2" "Bala" 1 2 20000).
  split; [vm_compute; reflexivity|]. split; [reflexivity|]. cbn. split; lia.
Qed.

Lemma attendance_report_bounds_witness :
  exists rep,
    get_overall_attendance "S1" sample_db = (AttendanceReport rep, sample_db) /\
    0 <= attended_classes rep <= total_classes rep /\
    0 <= attendance_percentage rep <= 10000.
Proof.
  destruct (attendance_report_bounds "S1" sample_db)
    as (rep & E & T & A & P & H).
  { vm_compute. left. reflexivity. }
  destruct H as [H1 H2]; [reflexivity|].
  exists rep. split; [exact E|]. split; split; assumption.
Defined.

(** ** Instances of the further properties *)

Lemma add_student_duplicate_rejected_witness :
  let data := mkStudentJson (Some "S1") (Some "Other") (Some 1) in
  In "S1" (map reg_no (students sample_db)) /\
  add_student data sample_db =
    (Error 400 "Student registration number already exists", sample_db).
Proof.
  intros data.
  assert (Hin : In "S1" (map reg_no (students sample_db)))
    by (vm_compute; left; reflexivity).
  split; [exact Hin|].
  apply (add_student_duplicate_rejected sample_db data "S1" "Other" 1);
    try reflexivity. exact Hin.
Defined.

Lemma get_overall_attendance_unknown_witness :
  ~ In "S9" (map reg_no (students sample_db)) /\
  get_overall_attendance "S9" sample_db =
    (Error 404 "Student not found", sample_db).
Proof.
  assert (Hnot : ~ In "S9" (map reg_no (students sample_db))).
  { vm_compute. intros [H|[H|[]]]; discriminate H. }
  split; [exact Hnot|].
  apply (get_overall_attendance_unknown "S9" sample_db Hnot).
Defined.

Lemma failed_request_changes_nothing_witness :
  let q := MarkAttendance broken_batch in
  is_failure (fst (handle q sample_db)) = true /\
  snd (handle q sample_db) = sample_db.
Proof.
  intros q. split; [reflexivity|].
  apply (failed_request_changes_nothing q sample_db). reflexivity.
Defined.

Lemma served_state_keeps_schema_witness :
  wf_db init_db /\ wf_db (snd (serve sample_requests init_db)).
Proof.
  split; [apply init_db_wf|].
  apply (served_state_keeps_schema sample_requests init_db), init_db_wf.
Defined.

Lemma bulk_counts_are_exact_witness :
  let w := snd (bulk_add_students (upload_of sample_csv) sample_db) in
  exists more,
    students w = students sample_db ++ more /\ Z.of_nat (List.length more) = 3.
Proof.
  intros w.
  destruct (bulk_counts_are_exact
              (mkUpload "students.csv" (list_byte_of_string sample_csv))
              sample_csv sample_db w 3 3)
    as (_ & _ & _ & M & _); [reflexivity | reflexivity | exact M].
Defined.

Lemma mark_attendance_accepts_any_pair_witness :
  exists d',
    mark_attendance (marks_for 77 [mark "nobody" 1; mark "nobody" 5]) init_db
      = (Message 200 "Attendance saved", d') /\
    filter (same_mark 77 "nobody") (attendance d') = [mkAttendance (Some 77) "nobody" 5].
Proof.
  destruct (mark_attendance_accepts_any_pair init_db 77
              [mark "nobody" 1; mark "nobody" 5]) as (d' & E & Hrows);
    [reflexivity | reflexivity |].
  exists d'. split; [exact E|]. apply Hrows. reflexivity.
Defined.


Lemma mark_then_report_witness :
  let d' := snd (mark_attendance (marks_for 2 [mark "S1" 1]) sample_db) in
  exists rep',
    get_overall_attendance "S1" d' = (AttendanceReport rep', d') /\
    total_classes rep' = 3 /\ attended_classes rep' = 3.
Proof.
  intros d'.
  destruct (mark_then_report sample_db 2 "S1" 1)
    as (rep & rep' & E & E' & T & A); try reflexivity.
  { vm_compute. left. reflexivity. }
  exists rep'. split; [exact E'|].
  assert (R : rep = mkReport "S1" "Asha" 3 2 6667).
  { assert (Q : fst (get_overall_attendance "S1" sample_db)
                = AttendanceReport rep) by now rewrite E.
    vm_compute in Q. injection Q as <-. reflexivity. }
  rewrite R in T, A. split; [exact T | exact A].
Defined.

Lemma full_and_zero_attendance_witness :
  let d := snd (mark_attendance (marks_for 1 [mark "S2" 1]) sample_db) in
  exists rep,
    get_overall_attendance "S2" d = (AttendanceReport rep, d) /\
    attendance_percentage rep = 10000.
Proof.
  intros d.
  destruct (full_and_zero_attendance "S2" d) as (rep & E & Full & _).
  { vm_compute. right. left. reflexivity. }
  exists rep. split; [exact E|].
  assert (R : rep = mkReport "S2" "Bala" 1 1 (attendance_percentage rep)).
  { assert (Q : fst (get_overall_attendance "S2" d) = AttendanceReport rep)
      by now rewrite E.
    vm_compute in Q. injection Q as <-. reflexivity. }
  apply Full; rewrite R; reflexivity.
Defined.

Lemma report_changes_only_by_marking_witness :
  let qs := [AddStudent (mkStudentJson (Some "S3") (Some "Chitra") (Some 1));
             CreatePeriod (period_of 4);
             BulkAddStudents (upload_of sample_csv)] in
  fst (get_overall_attendance "S1" (snd (serve qs sample_db))) =
  AttendanceReport (mkReport "S1" "Asha" 3 2 6667).
Proof.
  intros qs.
  rewrite (report_changes_only_by_marking qs sample_db "S1");
    [reflexivity | vm_compute; left; reflexivity | reflexivity].
Defined.

Lemma add_class_twice_rejected_witness :
  let data := mkClassJson (Some 2) (Some "CSE-B") (Some "CSE") in
  let again := mkClassJson (Some 2) (Some "ECE-A") None in
  let d' := snd (add_class data sample_db) in
  add_class again d' = (Error 400 "Class ID already exists", d').
Proof.
  intros data again d'.
  apply (add_class_twice_rejected sample_db d' data again "ECE-A");
    reflexivity.
Defined.

Lemma added_student_is_listed_witness :
  let data := mkStudentJson (Some "S3") (Some "Chitra") (Some 2) in
  let d' := snd (add_student data sample_db) in
  exists all rows,
    get_students None d' = (StudentList all, d') /\
    get_students (Some "2") d' = (StudentList rows, d') /\
    In (mkStudent "S3" "Chitra" 2) all /\ In (mkStudent "S3" "Chitra" 2) rows.
Proof.
  intros data d'.
  apply (added_student_is_listed sample_db d' data "S3" "Chitra" "2" 2);
    try reflexivity. intros H. discriminate H.
Defined.

Lemma create_period_stores_row_witness :
  fst (create_period (period_of 4) sample_db) = PeriodCreated 4 /\
  periods (snd (create_period (period_of 4) sample_db)) =
    periods sample_db ++ [mkPeriod 4 1 "Maths" "2025-12-15" 4].
Proof.
  rewrite (create_period_stores_row sample_db (period_of 4) 1 4
             "Maths" "2025-12-15"); try reflexivity.
  split; reflexivity.
Defined.

Lemma create_period_twice_witness :
  let d1 := snd (create_period (period_of 4) sample_db) in
  exists d2, create_period (period_of 4) d1 = (PeriodCreated 5, d2).
Proof.
  intros d1.
  destruct (create_period_twice sample_db d1 (period_of 4) 4)
    as (d2 & row & E & _); [reflexivity | reflexivity |].
  exists d2. exact E.
Defined.

Lemma added_class_is_listed_witness :
  let data := mkClassJson (Some 0) (Some "CSE-B") None in
  exists d',
    add_class data sample_db = (Message 201 "Class added", d') /\
    fst (get_classes d') =
      ClassList [mkClass 0 "CSE-B" ""; mkClass 1 "CSE-A" ""].
Proof.
  intros data.
  destruct (added_class_is_listed sample_db data 0 "CSE-B")
    as (d' & listing & E & L & _); try reflexivity.
  exists d'. split; [exact E|].
  assert (Q : d' = snd (add_class data sample_db)) by now rewrite E.
  rewrite Q. reflexivity.
Defined.

Lemma earlier_marks_are_counted_witness :
  let d := snd (mark_attendance (marks_for 7 [mark "S8" 1]) init_db) in
  let data := mkStudentJson (Some "S8") (Some "Hari") (Some 1) in
  exists rep,
    get_overall_attendance "S8" (snd (add_student data d))
      = (AttendanceReport rep, snd (add_student data d)) /\
    total_classes rep = 1.
Proof.
  intros d data.
  destruct (earlier_marks_are_counted d (snd (add_student data d)) data "S8")
    as (rep & E & T & _); [reflexivity | reflexivity |].
  exists rep. split; [exact E | exact T].
Defined.
